(** * Garden Voice Assistant: a shallow embedding of [server.js]

    The server is a relay of four independent HTTP endpoints.  Each handler
    reads its request, makes at most one outbound call (Deepgram, Airtable,
    OpenAI, ElevenLabs) and answers.  The embedding keeps that shape:

    - JavaScript values are a first-order datatype [value];
    - a handler is a computation in a small monad [M] that logs every
      outbound call and may throw, with [try_catch] for the handler's
      [try { ... } catch (error) { ... }];
    - the outside world ([World]) answers the outbound calls.

    [console.error] writes are not part of the modelled state. *)

From Stdlib Require Import ZArith QArith Ascii String List Lia.
From Stdlib.Strings Require Import Byte.
From stdpp Require Import base list strings.

Local Open Scope Z_scope.
Set Warnings "-register-all".
Set Default Proof Using "Type".

(** ** JavaScript values *)

(** A number literal is never inspected by a handler, so its payload is a
    rational (0.7, 300, ...). *)
Inductive value : Type :=
| VUndefined
| VNull
| VBool (b : bool)
| VNum (q : Q)
| VStr (s : string)
| VArr (elems : list value)
| VObj (props : list (string * value)).

Definition bytes : Type := list Byte.byte.

(** What a [throw] carries.  Every [catch] of the server ignores the payload
    except for logging, so only its origin is recorded. *)
Inductive exn : Type :=
| TypeError
| AxiosError (response : option (Z * value))
| AirtableError
| MulterError.

(** Completion of a synchronous expression: a value or a thrown exception. *)
Inductive result (A : Type) : Type :=
| Ok (a : A)
| Throw (e : exn).
Arguments Ok {A} a.
Arguments Throw {A} e.

#[global] Instance result_ret : MRet result := fun A a => Ok a.
#[global] Instance result_bind : MBind result := fun A B f r =>
  match r with
  | Ok a => f a
  | Throw e => Throw e
  end.

(** Own property lookup in an object literal: first binding of the key. *)
Fixpoint assoc (k : string) (props : list (string * value)) : value :=
  match props with
  | [] => VUndefined
  | (k', v) :: rest => if String.eqb k k' then v else assoc k rest
  end.

(** [v.k] for the property names the handlers read ([results], [channels],
    [alternatives], [transcript], [choices], [message], [content], [title]):
    none of them is inherited from a prototype, so primitives and arrays
    answer [undefined]; reading from [undefined] or [null] throws. *)
Definition get_prop (v : value) (k : string) : result value :=
  match v with
  | VUndefined | VNull => Throw TypeError
  | VObj props => Ok (assoc k props)
  | _ => Ok VUndefined
  end.

(** [v[0]]: first element of an array, first character of a string,
    property ["0"] of an object. *)
Definition get_first (v : value) : result value :=
  match v with
  | VUndefined | VNull => Throw TypeError
  | VArr (x :: _) => Ok x
  | VStr (String c _) => Ok (VStr (String c EmptyString))
  | VObj props => Ok (assoc "0" props)
  | _ => Ok VUndefined
  end.

(** [...v] inside an array literal: an array gives its elements, a string
    its characters; anything else is not iterable. *)
Definition spread (v : value) : result (list value) :=
  match v with
  | VArr elems => Ok elems
  | VStr s => Ok (map (fun c => VStr (String c EmptyString)) (list_ascii_of_string s))
  | _ => Throw TypeError
  end.

(** [undefined] or [null]: the values no property can be read from. *)
Definition nullish (v : value) : Prop := v = VUndefined \/ v = VNull.

(** ** Strings *)

(** [s] begins with [p]. *)
Fixpoint starts_with (p s : string) : bool :=
  match p, s with
  | EmptyString, _ => true
  | String _ _, EmptyString => false
  | String a p', String b s' => Ascii.eqb a b && starts_with p' s'
  end.

(** [String.prototype.includes]: [sub] occurs somewhere in [s]. *)
Fixpoint includes (s sub : string) : bool :=
  starts_with sub s ||
  match s with
  | EmptyString => false
  | String _ s' => includes s' sub
  end.

(** [Array.prototype.join] on an array of strings. *)
Fixpoint join (sep : string) (l : list string) : string :=
  match l with
  | [] => ""
  | [x] => x
  | x :: rest => x +:+ sep +:+ join sep rest
  end.

(** Truthiness of an optional string: [undefined] and [""] are falsy. *)
Definition truthy_str (o : option string) : bool :=
  match o with
  | Some (String _ _) => true
  | _ => false
  end.

(** [`${e}`] for an expression that is a string or [undefined]. *)
Definition interpolate (o : option string) : string :=
  match o with
  | Some s => s
  | None => "undefined"
  end.

(** ** Outbound calls and the world that answers them *)

Inductive ResponseType : Type := RJson | RArrayBuffer.

Definition data_of (rt : ResponseType) : Type :=
  match rt with
  | RJson => value
  | RArrayBuffer => bytes
  end.

Inductive ReqBody : Type :=
| BodyBuffer (b : bytes)
| BodyJson (v : value).

(** One [axios.post(url, data, config)]. *)
Record AxiosCall : Type := {
  url : string;
  data : ReqBody;
  headers : list (string * option string);
  responseType : ResponseType
}.

(** [base(table).select(params).all()]. *)
Record SelectParams : Type := {
  filterByFormula : string;
  maxRecords : Z;
  sort : list (string * string)
}.

(** An Airtable record: [record.id] and the cells behind [record.get]. *)
Record AirtableRecord : Type := {
  record_id : string;
  record_fields : list (string * value)
}.

(** [record.get(column)]: [undefined] for an empty or unknown cell. *)
Definition get (r : AirtableRecord) (column : string) : value :=
  assoc column (record_fields r).

Inductive Outbound : Type :=
| Axios (c : AxiosCall)
| Airtable (table : string) (params : SelectParams).

(** How an HTTP call ends once axios has followed every redirect: with no
    reply at all, or with the status and payload of the last reply. *)
Inductive HttpResult (D : Type) : Type :=
| NetworkFailure
| HttpReply (status : Z) (payload : D).
Arguments NetworkFailure {D}.
Arguments HttpReply {D} status payload.

Record World : Type := {
  http : forall c : AxiosCall, HttpResult (data_of (responseType c));
  store : string -> SelectParams -> result (list AirtableRecord)
}.

(** How [axios.post] settles: redirects are followed inside the library, and
    the promise resolves with [response.data] when the last reply has a 2xx
    status and rejects otherwise (default [validateStatus]). *)
Definition axios_outcome (w : World) (c : AxiosCall)
  : result (data_of (responseType c)) :=
  match http w c with
  | NetworkFailure => Throw (AxiosError None)
  | HttpReply st d =>
      if (200 <=? st) && (st <? 300) then Ok d
      else Throw (AxiosError
                    (Some (st, match responseType c as rt
                                     return data_of rt -> value with
                               | RJson => fun v => v
                               | RArrayBuffer => fun _ => VUndefined
                               end d)))
  end.

(** ** The handler monad: a log of outbound calls plus exceptions *)

Definition M (A : Type) : Type := list Outbound -> list Outbound * result A.

#[global] Instance M_ret : MRet M := fun A a log => (log, Ok a).
#[global] Instance M_bind : MBind M := fun A B f m log =>
  match m log with
  | (log', Ok a) => f a log'
  | (log', Throw e) => (log', Throw e)
  end.

Definition lift {A} (r : result A) : M A := fun log => (log, r).

Definition try_catch {A} (body : M A) (handler : exn -> M A) : M A :=
  fun log =>
    match body log with
    | (log', Ok a) => (log', Ok a)
    | (log', Throw e) => handler e log'
    end.

Definition axios_post (w : World) (c : AxiosCall)
  : M (data_of (responseType c)) :=
  fun log => (log ++ [Axios c], axios_outcome w c).

Definition select_all (w : World) (table : string) (params : SelectParams)
  : M (list AirtableRecord) :=
  fun log => (log ++ [Airtable table params], store w table params).

(** Running a handler from an empty log. *)
Definition run {A} (m : M A) : list Outbound * result A := m [].

(** ** What the server sends back *)

(** [ErrorPage] is the page of Express's default error handler; its text
    depends on the error and on [NODE_ENV]. *)
Inductive ResBody : Type :=
| JsonBody (v : value)
| RawBody (b : bytes)
| TextBody (s : string)
| ErrorPage.

Record Response : Type := {
  status : Z;
  content_type : option string;
  body : ResBody
}.

(** [res.json(v)] and [res.status(code).json(v)]. *)
Definition res_json (code : Z) (v : value) : Response :=
  {| status := code;
     content_type := Some "application/json; charset=utf-8";
     body := JsonBody v |}.

(** [res.status(500).json({ error: msg })]. *)
Definition res_error (msg : string) : Response :=
  res_json 500 (VObj [("error", VStr msg)]).

(** What [JSON.stringify] inside [res.json] puts on the wire, read back as a
    value: a property whose value is [undefined] is omitted, an [undefined]
    array element becomes [null]. *)
Fixpoint wire (v : value) : value :=
  match v with
  | VArr elems =>
      VArr (map (fun x => match x with
                          | VUndefined => VNull
                          | _ => wire x
                          end) elems)
  | VObj props =>
      VObj ((fix go (ps : list (string * value)) : list (string * value) :=
               match ps with
               | [] => []
               | (_, VUndefined) :: rest => go rest
               | (k, x) :: rest => (k, wire x) :: go rest
               end) props)
  | _ => v
  end.

(** The property names of an object, in insertion order. *)
Definition keys (v : value) : list string :=
  match v with
  | VObj props => map fst props
  | _ => []
  end.

(** ** Requests, as each route documents them *)

(** [req.file] after [upload.single('audio')]: absent when the multipart
    field is missing. *)
Record UploadedFile : Type := { buffer : bytes }.
Record TranscribeRequest : Type := { file : option UploadedFile }.

(** Body of [/api/search-products]; every field is optional. *)
Record SearchRequest : Type := {
  query : option string;
  category : option string;
  tags : option (list string)
}.

(** Body of [/api/get-response]. *)
Record ChatRequest : Type := {
  userMessage : string;
  conversationHistory : list value;
  availableProducts : list value
}.

(** Body of [/api/get-response] before line 118 has spread
    [conversationHistory], which may be any value, [undefined] when the
    property is missing. *)
Record ChatBody : Type := {
  body_userMessage : string;
  body_conversationHistory : value;
  body_availableProducts : list value
}.

Definition chat_request (body : ChatBody) (history : list value) : ChatRequest :=
  {| userMessage := body_userMessage body;
     conversationHistory := history;
     availableProducts := body_availableProducts body |}.

(** Body of [/api/speak]. *)
Record SpeakRequest : Type := { text : string }.

(** ** The handlers *)

Section Server.

(** [process.env], and the two library functions whose results the server
    only passes along. *)
Variable env : string -> option string.
Variable toLowerCase : string -> string.
Variable JSON_stringify : value -> string.

(** *** POST /api/transcribe *)

Definition deepgram_call (audioBuffer : bytes) : AxiosCall :=
  {| url := "https://api.deepgram.com/v1/listen?model=nova-2&smart_format=true";
     data := BodyBuffer audioBuffer;
     headers :=
       [("Authorization", Some ("Token " +:+ interpolate (env "DEEPGRAM_API_KEY")));
        ("Content-Type", Some "audio/webm")];
     responseType := RJson |}.

(** [req.file.buffer] *)
Definition file_buffer (req : TranscribeRequest) : result bytes :=
  match file req with
  | Some f => Ok (buffer f)
  | None => Throw TypeError
  end.

(** [response.data.results.channels[0].alternatives[0].transcript] *)
Definition read_transcript (response_data : value) : result value :=
  results ← get_prop response_data "results";
  channels ← get_prop results "channels";
  channel ← get_first channels;
  alternatives ← get_prop channel "alternatives";
  alternative ← get_first alternatives;
  get_prop alternative "transcript".

Definition transcribe (w : World) (req : TranscribeRequest) : M Response :=
  try_catch
    (audioBuffer ← lift (file_buffer req);
     response_data ← axios_post w (deepgram_call audioBuffer);
     transcript ← lift (read_transcript response_data);
     mret (res_json 200 (VObj [("transcript", transcript)])))
    (fun error => mret (res_error "Transcription failed")).

(** *** POST /api/search-products *)

Definition tagCondition (tag : string) : string :=
  "FIND('" +:+ tag +:+ "', {tags})".

Definition filterFormula (req : SearchRequest) : string :=
  let filterFormula := "AND({in_stock} = TRUE()" in
  let filterFormula :=
    if truthy_str (category req)
    then filterFormula +:+ (", {category} = '" +:+ interpolate (category req) +:+ "'")
    else filterFormula in
  let filterFormula :=
    match tags req with
    | Some ((_ :: _) as tags) =>
        let tagConditions := join ", " (map tagCondition tags) in
        filterFormula +:+ (", OR(" +:+ tagConditions +:+ ")")
    | _ => filterFormula
    end in
  filterFormula +:+ ")".

Definition select_params (req : SearchRequest) : SelectParams :=
  {| filterByFormula := filterFormula req;
     maxRecords := 10;
     sort := [("title", "asc")] |}.

Definition product_of_record (record : AirtableRecord) : value :=
  VObj [("id", VStr (record_id record));
        ("product_id", get record "product_id");
        ("title", get record "title");
        ("brand", get record "brand");
        ("category", get record "category");
        ("tags", get record "tags");
        ("short_description", get record "short_description");
        ("price", get record "price");
        ("bag_size_cf", get record "bag-size-cf");
        ("in_stock", get record "in_stock");
        ("image_url", get record "image_url");
        ("use_case", get record "use-case");
        ("voice_script_30S", get record "voice_script_30S")].

Definition search_products (w : World) (req : SearchRequest) : M Response :=
  try_catch
    (records ← select_all w "Products" (select_params req);
     let products := map product_of_record records in
     mret (res_json 200 (VObj [("products", VArr products)])))
    (fun error => mret (res_error "Product search failed")).

(** *** POST /api/get-response *)

Definition systemPrompt (req : ChatRequest) : string :=
  "You are a helpful garden center employee specializing in soil products. 
Your job is to help customers find the right soil products for their needs.

Available products:
" +:+ JSON_stringify (VArr (availableProducts req)) +:+ "

Guidelines:
- Be friendly, warm, and patient (many customers are 55-70 years old)
- Ask clarifying questions if needed (indoor/outdoor, vegetables/flowers, containers/beds)
- Recommend specific products from the available list
- Mention key benefits (drainage, nutrients, organic, etc.)
- Keep responses concise (2-4 sentences)
- If you don't know something, offer to get a staff member

Current customer question: " +:+ userMessage req.

Definition turn (role content : string) : value :=
  VObj [("role", VStr role); ("content", VStr content)].

Definition messages (req : ChatRequest) : list value :=
  [turn "system" (systemPrompt req)]
    ++ conversationHistory req
    ++ [turn "user" (userMessage req)].

Definition openai_call (req : ChatRequest) : AxiosCall :=
  {| url := "https://api.openai.com/v1/chat/completions";
     data := BodyJson (VObj [("model", VStr "gpt-4o-mini");
                             ("messages", VArr (messages req));
                             ("temperature", VNum (7 # 10));
                             ("max_tokens", VNum (300 # 1))]);
     headers :=
       [("Authorization", Some ("Bearer " +:+ interpolate (env "OPENAI_API_KEY")));
        ("Content-Type", Some "application/json")];
     responseType := RJson |}.

(** [response.data.choices[0].message.content] *)
Definition read_content (response_data : value) : result value :=
  choices ← get_prop response_data "choices";
  choice ← get_first choices;
  message ← get_prop choice "message";
  get_prop message "content".

(** [v.toLowerCase()]: only a string has the method. *)
Definition call_toLowerCase (v : value) : result string :=
  match v with
  | VStr s => Ok (toLowerCase s)
  | _ => Throw TypeError
  end.

(** The callback of [availableProducts.filter]:
    [aiResponse.toLowerCase().includes(product.title.toLowerCase())]. *)
Definition mentions (aiResponse product : value) : result bool :=
  reply ← call_toLowerCase aiResponse;
  title ← get_prop product "title";
  needle ← call_toLowerCase title;
  Ok (includes reply needle).

(** [Array.prototype.filter] with a callback that may throw: elements are
    visited in order and the first exception aborts the scan. *)
Fixpoint filter_array (callback : value -> result bool) (l : list value)
  : result (list value) :=
  match l with
  | [] => Ok []
  | x :: rest =>
      keep ← callback x;
      kept ← filter_array callback rest;
      Ok (if keep : bool then x :: kept else kept)
  end.

(** [a.slice(0, n)] *)
Definition slice0 (n : nat) (a : list value) : list value := take n a.

Definition get_response (w : World) (req : ChatRequest) : M Response :=
  try_catch
    (response_data ← axios_post w (openai_call req);
     aiResponse ← lift (read_content response_data);
     recommendedProducts ←
       lift (filter_array (mentions aiResponse) (availableProducts req));
     mret (res_json 200
             (VObj [("text", aiResponse);
                    ("recommendedProducts",
                     VArr (slice0 3 recommendedProducts))])))
    (fun error => mret (res_error "AI response failed")).

(** *** POST /api/speak *)

Definition elevenlabs_call (req : SpeakRequest) : AxiosCall :=
  {| url := "https://api.elevenlabs.io/v1/text-to-speech/"
              +:+ interpolate (env "ELEVENLABS_VOICE_ID");
     data := BodyJson
               (VObj [("text", VStr (text req));
                      ("model_id", VStr "eleven_monolingual_v1");
                      ("voice_settings",
                       VObj [("stability", VNum (5 # 10));
                             ("similarity_boost", VNum (75 # 100))])]);
     headers :=
       [("xi-api-key", env "ELEVENLABS_API_KEY");
        ("Content-Type", Some "application/json")];
     responseType := RArrayBuffer |}.

Definition speak (w : World) (req : SpeakRequest) : M Response :=
  try_catch
    (response_data ← axios_post w (elevenlabs_call req);
     mret {| status := 200;
             content_type := Some "audio/mpeg";
             body := RawBody response_data |})
    (fun error => mret (res_error "Text-to-speech failed")).

(** *** The two routes from the raw request *)

(** [upload.single('audio')]: the file parts of the request body, in the
    order sent, must be nothing or one file under the named field; any
    other file part is refused (unexpected field). *)
Definition upload_single (fieldname : string) (files : list (string * UploadedFile))
  : result (option UploadedFile) :=
  match files with
  | [] => Ok None
  | [(name, f)] =>
      if String.eqb name fieldname then Ok (Some f) else Throw MulterError
  | _ => Throw MulterError
  end.

(** What Express answers when a middleware passes an error on: no error
    middleware is installed, so its default handler replies. *)
Definition express_error_page : Response :=
  {| status := 500;
     content_type := Some "text/html; charset=utf-8";
     body := ErrorPage |}.

(** [app.post('/api/transcribe', upload.single('audio'), handler)]: the
    handler runs only when the middleware lets the request through. *)
Definition post_transcribe (w : World) (files : list (string * UploadedFile))
  : M Response :=
  match upload_single "audio" files with
  | Ok uploaded => transcribe w {| file := uploaded |}
  | Throw _ => mret express_error_page
  end.

(** [/api/get-response] on any body: [...conversationHistory] throws inside
    the [try] unless the value is iterable.  [get_response] is this handler
    on a body whose [conversationHistory] is an array. *)
Definition post_get_response (w : World) (body : ChatBody) : M Response :=
  try_catch
    (history ← lift (spread (body_conversationHistory body));
     let req := chat_request body history in
     response_data ← axios_post w (openai_call req);
     aiResponse ← lift (read_content response_data);
     recommendedProducts ←
       lift (filter_array (mentions aiResponse) (availableProducts req));
     mret (res_json 200
             (VObj [("text", aiResponse);
                    ("recommendedProducts",
                     VArr (slice0 3 recommendedProducts))])))
    (fun error => mret (res_error "AI response failed")).

(** *** GET /api/health *)

Definition health : M Response :=
  mret (res_json 200 (VObj [("status", VStr "ok")])).

End Server.

(** ** A runtime to execute the model on concrete inputs

    The theorems below hold for every [env], [toLowerCase] and
    [JSON_stringify]; these instances serve to run the handlers. *)

Module Sample.

Definition env (name : string) : option string :=
  if String.eqb name "ELEVENLABS_VOICE_ID" then Some "voice-1" else Some "key".

Definition lower_char (c : ascii) : ascii :=
  let n := nat_of_ascii c in
  if (65 <=? n)%nat && (n <=? 90)%nat then ascii_of_nat (n + 32) else c.

(** [toLowerCase] on ASCII text. *)
Fixpoint toLowerCase (s : string) : string :=
  match s with
  | EmptyString => EmptyString
  | String c rest => String (lower_char c) (toLowerCase rest)
  end.

Definition quote (s : string) : string :=
  String "034"%char (s +:+ String "034"%char EmptyString).

(** A compact serializer of the string skeleton of a value; scalars other
    than strings print as their JSON keyword or as [0]. *)
Fixpoint JSON_stringify (v : value) : string :=
  match v with
  | VUndefined | VNull => "null"
  | VBool true => "true"
  | VBool false => "false"
  | VNum _ => "0"
  | VStr s => quote s
  | VArr elems => "[" +:+ join "," (map JSON_stringify elems) +:+ "]"
  | VObj props =>
      "{" +:+ join "," (map (fun kv => quote (fst kv) +:+ ":" +:+ JSON_stringify (snd kv))
                            props) +:+ "}"
  end.

(** A world in which every provider is down. *)
Definition offline : World :=
  {| http := fun _ => NetworkFailure;
     store := fun _ _ => Throw AirtableError |}.

(** A world in which the JSON endpoints answer 200 with [reply], the
    binary endpoint with [audio] and the store with [records]. *)
Definition answering (reply : value) (audio : bytes)
           (records : list AirtableRecord) : World :=
  {| http := fun c =>
       match responseType c as rt return HttpResult (data_of rt) with
       | RJson => HttpReply 200 reply
       | RArrayBuffer => HttpReply 200 audio
       end;
     store := fun _ _ => Ok records |}.

End Sample.

(** ** The filter expression, as a formula of the store *)

(** The clauses the catalog query is made of.  [render] prints a formula in
    the store's syntax; [filter_formula] is the formula the search policy
    prescribes: the in-stock clause, then the category clause for a
    non-empty category, then the disjunction over a non-empty tag list. *)
Inductive formula : Type :=
| InStock
| CategoryIs (c : string)
| TagFound (tag : string)
| AND (args : list formula)
| OR (args : list formula).

Fixpoint render (f : formula) : string :=
  match f with
  | InStock => "{in_stock} = TRUE()"
  | CategoryIs c => "{category} = '" +:+ c +:+ "'"
  | TagFound tag => "FIND('" +:+ tag +:+ "', {tags})"
  | AND args => "AND(" +:+ join ", " (map render args) +:+ ")"
  | OR args => "OR(" +:+ join ", " (map render args) +:+ ")"
  end.

Definition category_clause (req : SearchRequest) : list formula :=
  match category req with
  | Some (String _ _ as c) => [CategoryIs c]
  | _ => []
  end.

Definition tag_clause (req : SearchRequest) : list formula :=
  match tags req with
  | Some ((_ :: _) as tags) => [OR (map TagFound tags)]
  | _ => []
  end.

Definition filter_formula (req : SearchRequest) : formula :=
  AND (InStock :: category_clause req ++ tag_clause req).

(** Modelled from the spec: the store's formula language is not part of the
    repository.  The one rule used here is lexical: a string literal opened
    by a quote runs to the next unescaped quote of the same kind, and a
    well-formed formula does not end inside a literal. *)
Inductive lex_state : Type := Outside | InSingle | InDouble.

Fixpoint scan (st : lex_state) (s : string) : lex_state :=
  match s with
  | EmptyString => st
  | String c rest =>
      match st with
      | Outside =>
          if Ascii.eqb c "'" then scan InSingle rest
          else if Ascii.eqb c "034" then scan InDouble rest
          else scan Outside rest
      | InSingle =>
          if Ascii.eqb c "'" then scan Outside rest
          else if Ascii.eqb c "092" then
            match rest with
            | EmptyString => InSingle
            | String _ rest' => scan InSingle rest'
            end
          else scan InSingle rest
      | InDouble =>
          if Ascii.eqb c "034" then scan Outside rest
          else if Ascii.eqb c "092" then
            match rest with
            | EmptyString => InDouble
            | String _ rest' => scan InDouble rest'
            end
          else scan InDouble rest
      end
  end.

Definition literals_closed (s : string) : bool :=
  match scan Outside s with
  | Outside => true
  | _ => false
  end.

(** ** The product projection, column by column *)

(** The store columns read by [/api/search-products], in the order read. *)
Definition store_columns : list string :=
  ["product_id"; "title"; "brand"; "category"; "tags"; "short_description";
   "price"; "bag-size-cf"; "in_stock"; "image_url"; "use-case";
   "voice_script_30S"].

(** A column name with every hyphen turned into an underscore. *)
Fixpoint underscored (name : string) : string :=
  match name with
  | EmptyString => EmptyString
  | String c rest =>
      String (if Ascii.eqb c "-" then "_"%char else c) (underscored rest)
  end.

Definition projection (record : AirtableRecord) : value :=
  VObj (("id", VStr (record_id record))
          :: map (fun column => (underscored column, get record column))
                 store_columns).

Definition is_defined (v : value) : bool :=
  match v with
  | VUndefined => false
  | _ => true
  end.

(** ** Substring attribution *)

Section Attribution.

Variable toLowerCase : string -> string.

(** The title of [product] is a string that occurs, case folded, somewhere
    in the case-folded reply text. *)
Definition title_in_reply (reply product : value) : Prop :=
  exists text title before after,
    reply = VStr text /\
    get_prop product "title" = Ok (VStr title) /\
    toLowerCase text = before +:+ toLowerCase title +:+ after.

(** The filter callback as a total test: [false] where it would throw. *)
Definition mentioned (reply product : value) : bool :=
  match mentions toLowerCase reply product with
  | Ok b => b
  | Throw _ => false
  end.

(** The pure steps of [/api/get-response] after the call has settled. *)
Definition attribute (req : ChatRequest) (response_data : value)
  : result (value * list value) :=
  aiResponse ← read_content response_data;
  recommendedProducts ←
    filter_array (mentions toLowerCase aiResponse) (availableProducts req);
  Ok (aiResponse, recommendedProducts).

End Attribution.

(** ** Bodies the handlers cannot read through *)

(** The body lacks an object on the way to
    [results.channels[0].alternatives[0]]: the body itself or one of the
    values read through is [undefined] or [null]. *)
Definition transcript_path_broken (d : value) : Prop :=
  nullish d \/
  exists results, get_prop d "results" = Ok results /\
    (nullish results \/
     exists channels, get_prop results "channels" = Ok channels /\
       (nullish channels \/
        exists channel, get_first channels = Ok channel /\
          (nullish channel \/
           exists alternatives, get_prop channel "alternatives" = Ok alternatives /\
             (nullish alternatives \/
              exists alternative, get_first alternatives = Ok alternative /\
                                  nullish alternative)))).

(** The body lacks an object on the way to [choices[0].message]. *)
Definition content_path_broken (d : value) : Prop :=
  nullish d \/
  exists choices, get_prop d "choices" = Ok choices /\
    (nullish choices \/
     exists choice, get_first choices = Ok choice /\
       (nullish choice \/
        exists message, get_prop choice "message" = Ok message /\
                        nullish message)).

(** The provider answered 2xx with a transcript string at
    [results.channels[0].alternatives[0].transcript]. *)
Definition has_transcript (response_data : value) : Prop :=
  exists s, read_transcript response_data = Ok (VStr s).

(** ** Concrete requests and provider replies *)

Module Fixture.

Definition product (title : string) : value := VObj [("title", VStr title)].

Definition catalog : list value :=
  [product "EcoMix Potting Soil"; product "Cactus Mix";
   product "Raised Bed Soil"; product "Seed Starter"].

Definition chat (message : string) (products : list value) : ChatRequest :=
  {| userMessage := message;
     conversationHistory := [];
     availableProducts := products |}.

(** An OpenAI completion whose first choice carries [content]. *)
Definition completion (content : value) : value :=
  VObj [("choices",
         VArr [VObj [("index", VNum (0 # 1));
                     ("message", VObj [("role", VStr "assistant");
                                       ("content", content)])]])].

Definition all_four : string :=
  "Try EcoMix Potting Soil, Cactus Mix, Raised Bed Soil or Seed Starter.".

(** A Deepgram reply whose best alternative is [alternative]. *)
Definition listen (alternative : value) : value :=
  VObj [("results",
         VObj [("channels",
                VArr [VObj [("alternatives", VArr [alternative])]])])].

Definition upload : TranscribeRequest :=
  {| file := Some {| buffer := [x52; x49; x46; x46] |} |}.

Definition no_upload : TranscribeRequest := {| file := None |}.

Definition soil : AirtableRecord :=
  {| record_id := "rec1";
     record_fields :=
       [("product_id", VStr "P-1"); ("title", VStr "EcoMix Potting Soil");
        ("brand", VStr "EcoMix"); ("category", VStr "potting-soil");
        ("tags", VStr "organic, drainage");
        ("short_description", VStr "Light organic mix");
        ("price", VNum (1299 # 100)); ("bag-size-cf", VNum (2 # 1));
        ("in_stock", VBool true); ("image_url", VStr "https://img/1.png");
        ("use-case", VStr "containers");
        ("voice_script_30S", VStr "Great for pots.")] |}.

Definition search (c : option string) (t : option (list string)) : SearchRequest :=
  {| query := None; category := c; tags := t |}.

End Fixture.

(** ** Further vocabulary for the properties below *)

(** Text without a quote of either kind and without a backslash. *)
Definition plain_char (c : ascii) : bool :=
  negb (Ascii.eqb c "'" || Ascii.eqb c "034" || Ascii.eqb c "092").

Fixpoint plain (s : string) : bool :=
  match s with
  | EmptyString => true
  | String c rest => plain_char c && plain rest
  end.

Definition plain_request (req : SearchRequest) : bool :=
  match category req with
  | Some c => plain c
  | None => true
  end
  && match tags req with
     | Some ts => forallb plain ts
     | None => true
     end.

(** The product carries a string under [title]. *)
Definition has_title (product : value) : Prop :=
  exists title, get_prop product "title" = Ok (VStr title).

(** The call ends without a 2xx reply: no reply at all, or a last reply
    whose status lies outside 200..299. *)
Definition no_2xx_reply (w : World) (c : AxiosCall) : Prop :=
  http w c = NetworkFailure
  \/ exists st d, http w c = HttpReply st d /\ ~ (200 <= st < 300).

(** A search request with its empty fields taken away: an empty category
    and an empty tag list become absent. *)
Definition without_empty_fields (req : SearchRequest) : SearchRequest :=
  {| query := query req;
     category := match category req with
                 | Some EmptyString => None
                 | c => c
                 end;
     tags := match tags req with
             | Some [] => None
             | ts => ts
             end |}.

(** * Properties *)

(** ** Running the four handlers

    Each handler makes its only outbound call at a fixed place, so a run is
    determined by the completion of the pure steps around that call. *)

Ltac run_handler h :=
  unfold run, h, try_catch, mbind, M_bind, mret, M_ret, lift, axios_post, select_all;
  simpl.

Section Runs.

Variable env : string -> option string.
Variable toLowerCase : string -> string.
Variable JSON_stringify : value -> string.
Variable w : World.

Lemma transcribe_no_file req :
  file req = None ->
  run (transcribe env w req) = ([], Ok (res_error "Transcription failed")).
Proof.
  intros Hfile. run_handler transcribe. unfold file_buffer. rewrite Hfile. reflexivity.
Qed.

Lemma transcribe_run req f :
  file req = Some f ->
  run (transcribe env w req) =
    ([Axios (deepgram_call env (buffer f))],
     Ok match axios_outcome w (deepgram_call env (buffer f)) ≫= read_transcript with
        | Ok transcript => res_json 200 (VObj [("transcript", transcript)])
        | Throw _ => res_error "Transcription failed"
        end).
Proof.
  intros Hfile. run_handler transcribe. unfold file_buffer. rewrite Hfile. simpl.
  destruct (axios_outcome w (deepgram_call env (buffer f))) as [d|e]; simpl;
    [destruct (read_transcript d)|]; reflexivity.
Qed.

Lemma search_products_run req :
  run (search_products w req) =
    ([Airtable "Products" (select_params req)],
     Ok match store w "Products" (select_params req) with
        | Ok records =>
            res_json 200 (VObj [("products", VArr (map product_of_record records))])
        | Throw _ => res_error "Product search failed"
        end).
Proof.
  run_handler search_products. destruct (store w "Products" (select_params req)); reflexivity.
Qed.

Lemma get_response_run req :
  run (get_response env toLowerCase JSON_stringify w req) =
    ([Axios (openai_call env JSON_stringify req)],
     Ok match axios_outcome w (openai_call env JSON_stringify req) ≫= attribute toLowerCase req with
        | Ok (aiResponse, recommendedProducts) =>
            res_json 200
              (VObj [("text", aiResponse);
                     ("recommendedProducts", VArr (slice0 3 recommendedProducts))])
        | Throw _ => res_error "AI response failed"
        end).
Proof.
  run_handler get_response. unfold attribute.
  destruct (axios_outcome w (openai_call env JSON_stringify req)) as [d|e]; simpl;
    [|reflexivity].
  destruct (read_content d) as [ai|e]; simpl; [|reflexivity].
  destruct (filter_array (mentions toLowerCase ai) (availableProducts req));
    reflexivity.
Qed.

Lemma speak_run req :
  run (speak env w req) =
    ([Axios (elevenlabs_call env req)],
     Ok match axios_outcome w (elevenlabs_call env req) with
        | Ok audio =>
            {| status := 200; content_type := Some "audio/mpeg"; body := RawBody audio |}
        | Throw _ => res_error "Text-to-speech failed"
        end).
Proof.
  run_handler speak. destruct (axios_outcome w (elevenlabs_call env req)); reflexivity.
Qed.

End Runs.

(** ** Strings: append, prefix, substring *)

Lemma append_cons c (s t : string) : String c s +:+ t = String c (s +:+ t).
Proof. reflexivity. Qed.

Lemma append_nil_l (t : string) : "" +:+ t = t.
Proof. reflexivity. Qed.

Lemma append_nil_r (s : string) : s +:+ "" = s.
Proof. induction s as [|c s IH]; [reflexivity|]. rewrite append_cons, IH. reflexivity. Qed.

Lemma append_assoc (a b c : string) : (a +:+ b) +:+ c = a +:+ (b +:+ c).
Proof.
  induction a as [|x a IH]; [reflexivity|].
  rewrite !append_cons, IH. reflexivity.
Qed.

Lemma starts_with_spec (p s : string) :
  starts_with p s = true <-> exists rest, s = p +:+ rest.
Proof.
  revert s. induction p as [|c p IH]; intros s; simpl.
  - split; [intros _; exists s; reflexivity | reflexivity].
  - destruct s as [|d s].
    + split; [discriminate | intros [rest H]; discriminate].
    + rewrite andb_true_iff, Ascii.eqb_eq, IH. split.
      * intros [-> [rest ->]]. exists rest. reflexivity.
      * intros [rest H]. rewrite append_cons in H. inversion H; subst. eauto.
Qed.

(** [includes] decides occurrence as a contiguous substring. *)
Lemma includes_spec (s sub : string) :
  includes s sub = true <-> exists before after, s = before +:+ sub +:+ after.
Proof.
  induction s as [|c s IH]; simpl.
  - rewrite orb_false_r, starts_with_spec. split.
    + intros [rest H]. exists "", rest. exact H.
    + intros [before [after H]]. destruct before; [|discriminate].
      exists after. exact H.
  - rewrite orb_true_iff, starts_with_spec, IH. split.
    + intros [[rest H]|[before [after H]]].
      * exists "", rest. exact H.
      * exists (String c before), after. rewrite append_cons. congruence.
    + intros [before [after H]]. destruct before as [|d before].
      * left. exists after. exact H.
      * right. exists before, after. rewrite append_cons in H. congruence.
Qed.

(** ** Lists: a filter that may throw, and the first [n] of a filter *)

Lemma filter_array_ok callback l kept :
  filter_array callback l = Ok kept ->
  kept = List.filter (fun x => match callback x with Ok b => b | Throw _ => false end) l
  /\ Forall (fun x => exists b, callback x = Ok b) l.
Proof.
  revert kept. induction l as [|x l IH]; simpl; intros kept H.
  - inversion H. split; constructor.
  - unfold mbind, result_bind in H.
    destruct (callback x) as [b|e] eqn:Hx; [|discriminate].
    destruct (filter_array callback l) as [k|e] eqn:Hl; [|discriminate].
    destruct (IH k eq_refl) as [-> Hall]. inversion H; subst. split.
    + destruct b; reflexivity.
    + constructor; eauto.
Qed.


Lemma sublist_list_filter {A} (f : A -> bool) (l : list A) :
  List.filter f l `sublist_of` l.
Proof.
  induction l as [|x l IH]; simpl; [constructor|].
  destruct (f x); [apply sublist_skip | apply sublist_cons]; exact IH.
Qed.

(** Membership in the first [n] elements kept by a filter: the element is at
    a position that passes the test and fewer than [n] earlier positions
    pass it. *)
Lemma elem_of_take_filter {A} (f : A -> bool) (n : nat) (l : list A) (x : A) :
  x ∈ take n (List.filter f l) <->
  exists before after,
    l = before ++ x :: after /\ f x = true /\
    (length (List.filter f before) < n)%nat.
Proof.
  revert n. induction l as [|y l IH]; intros n.
  - simpl. rewrite take_nil. split.
    + intros H. inversion H.
    + intros (before & after & H & _). destruct before; discriminate.
  - simpl. destruct (f y) eqn:Hy.
    + destruct n as [|n]; simpl.
      * split; [intros H; inversion H|]. intros (b & a & _ & _ & Hlt). lia.
      * rewrite elem_of_cons, IH. split.
        -- intros [->|(b & a & -> & Hx & Hlt)].
           ++ exists [], l. simpl. repeat split; [exact Hy | lia].
           ++ exists (y :: b), a. simpl. rewrite Hy. simpl.
              repeat split; [exact Hx | lia].
        -- intros (b & a & Hl & Hx & Hlt). destruct b as [|z b]; simpl in Hl.
           ++ left. congruence.
           ++ right. inversion Hl; subst. simpl in Hlt. rewrite Hy in Hlt.
              simpl in Hlt. exists b, a. repeat split; [exact Hx | lia].
    + rewrite IH. split.
      * intros (b & a & -> & Hx & Hlt). exists (y :: b), a. simpl. rewrite Hy.
        repeat split; [exact Hx | exact Hlt].
      * intros (b & a & Hl & Hx & Hlt). destruct b as [|z b]; simpl in Hl.
        -- inversion Hl; subst. congruence.
        -- inversion Hl; subst. simpl in Hlt. rewrite Hy in Hlt.
           exists b, a. repeat split; [exact Hx | exact Hlt].
Qed.

(** ** How [axios.post] settles *)

Lemma axios_rejects_iff w c :
  (exists e, axios_outcome w c = Throw e) <->
  http w c = NetworkFailure \/
  exists st d, http w c = HttpReply st d /\ ~ (200 <= st < 300).
Proof.
  unfold axios_outcome. destruct (http w c) as [|st d].
  - split; [auto | eauto].
  - destruct ((200 <=? st) && (st <? 300)) eqn:Hst.
    + apply andb_true_iff in Hst as [H1 H2].
      apply Z.leb_le in H1. apply Z.ltb_lt in H2. split.
      * intros [e H]. discriminate.
      * intros [H|(st' & d' & H & Hn)]; [discriminate|].
        inversion H; subst. lia.
    + split; [|eauto]. intros _. right. exists st, d. split; [reflexivity|].
      intros [H1 H2]. apply Z.leb_le in H1. apply Z.ltb_lt in H2.
      rewrite H1, H2 in Hst. discriminate.
Qed.

Lemma axios_resolves_iff w c d :
  axios_outcome w c = Ok d <->
  exists st, http w c = HttpReply st d /\ 200 <= st < 300.
Proof.
  unfold axios_outcome. destruct (http w c) as [|st d'].
  - split; [discriminate | intros (st & H & _); discriminate].
  - destruct ((200 <=? st) && (st <? 300)) eqn:Hst.
    + apply andb_true_iff in Hst as [H1 H2].
      apply Z.leb_le in H1. apply Z.ltb_lt in H2. split.
      * intros H. inversion H; subst. eauto.
      * intros (st' & H & _). inversion H; subst. reflexivity.
    + split; [discriminate|]. intros (st' & H & H1 & H2). inversion H; subst.
      apply Z.leb_le in H1. apply Z.ltb_lt in H2. rewrite H1, H2 in Hst.
      discriminate.
Qed.

(** ** The routes from the raw request *)

Section RawRuns.

Variable env : string -> option string.
Variable toLowerCase : string -> string.
Variable JSON_stringify : value -> string.
Variable w : World.

Lemma post_get_response_spread (body : ChatBody) (history : list value) :
  spread (body_conversationHistory body) = Ok history ->
  run (post_get_response env toLowerCase JSON_stringify w body)
  = run (get_response env toLowerCase JSON_stringify w (chat_request body history)).
Proof.
  intros H. unfold run, post_get_response, get_response, try_catch, mbind, M_bind, lift.
  rewrite H. reflexivity.
Qed.

Lemma post_get_response_not_iterable (body : ChatBody) (e : exn) :
  spread (body_conversationHistory body) = Throw e ->
  run (post_get_response env toLowerCase JSON_stringify w body)
  = ([], Ok (res_error "AI response failed")).
Proof.
  intros H. unfold run, post_get_response, try_catch, mbind, M_bind, lift.
  rewrite H. reflexivity.
Qed.

End RawRuns.

Lemma nullish_get_prop (v : value) (k : string) :
  nullish v -> get_prop v k = Throw TypeError.
Proof. intros [-> | ->]; reflexivity. Qed.

Lemma nullish_get_first (v : value) :
  nullish v -> get_first v = Throw TypeError.
Proof. intros [-> | ->]; reflexivity. Qed.

Lemma broken_transcript_path_throws (d : value) :
  transcript_path_broken d -> read_transcript d = Throw TypeError.
Proof.
  unfold transcript_path_broken, read_transcript, mbind, result_bind.
  intros [H|(results & -> & [H|(channels & -> & [H|(channel & -> &
            [H|(alternatives & -> & [H|(alternative & -> & H)])])])])].
  - rewrite nullish_get_prop by exact H. reflexivity.
  - rewrite nullish_get_prop by exact H. reflexivity.
  - rewrite nullish_get_first by exact H. reflexivity.
  - rewrite nullish_get_prop by exact H. reflexivity.
  - rewrite nullish_get_first by exact H. reflexivity.
  - rewrite nullish_get_prop by exact H. reflexivity.
Qed.

Lemma broken_content_path_throws (d : value) :
  content_path_broken d -> read_content d = Throw TypeError.
Proof.
  unfold content_path_broken, read_content, mbind, result_bind.
  intros [H|(choices & -> & [H|(choice & -> & [H|(message & -> & H)])])].
  - rewrite nullish_get_prop by exact H. reflexivity.
  - rewrite nullish_get_first by exact H. reflexivity.
  - rewrite nullish_get_prop by exact H. reflexivity.
  - rewrite nullish_get_prop by exact H. reflexivity.
Qed.

(** ** POST /api/transcribe *)

Section TranscribeProperties.

Variable env : string -> option string.

(** C8. When the upload is accepted and the transcription provider resolves
    with a body [d] in which [d.results.channels[0].alternatives[0].transcript]
    is the string [s], the route makes exactly that one call and answers 200
    with [{transcript: s}], [s] being that very string; serialising the
    body leaves it as it is. *)
Theorem transcript_round_trip (w : World) (f : UploadedFile)
        (d results channels channel alternatives alternative : value) (s : string) :
  axios_outcome w (deepgram_call env (buffer f)) = Ok d ->
  get_prop d "results" = Ok results ->
  get_prop results "channels" = Ok channels ->
  get_first channels = Ok channel ->
  get_prop channel "alternatives" = Ok alternatives ->
  get_first alternatives = Ok alternative ->
  get_prop alternative "transcript" = Ok (VStr s) ->
  run (post_transcribe env w [("audio", f)])
  = ([Axios (deepgram_call env (buffer f))],
     Ok {| status := 200;
           content_type := Some "application/json; charset=utf-8";
           body := JsonBody (VObj [("transcript", VStr s)]) |})
  /\ wire (VObj [("transcript", VStr s)]) = VObj [("transcript", VStr s)].
Proof.
  intros Hcall H1 H2 H3 H4 H5 H6. split; [|reflexivity].
  change (post_transcribe env w [("audio", f)])
    with (transcribe env w {| file := Some f |}).
  rewrite (transcribe_run env w {| file := Some f |} f eq_refl), Hcall.
  unfold read_transcript, mbind, result_bind.
  rewrite H1, H2, H3, H4, H5, H6. reflexivity.
Qed.

(** C10 (amended). A POST to [/api/transcribe] that carries no file at all
    makes no outbound call and is answered 500
    [{error: "Transcription failed"}], which is the very answer given when
    the upload is accepted and the provider call is rejected. *)
Theorem missing_upload_answers_500 (w : World) (files : list (string * UploadedFile)) :
  files = [] ->
  run (post_transcribe env w files)
  = ([], Ok {| status := 500;
            content_type := Some "application/json; charset=utf-8";
            body := JsonBody (VObj [("error", VStr "Transcription failed")]) |})
  /\ forall w' f e,
       axios_outcome w' (deepgram_call env (buffer f)) = Throw e ->
       snd (run (post_transcribe env w' [("audio", f)]))
       = Ok {| status := 500;
            content_type := Some "application/json; charset=utf-8";
            body := JsonBody (VObj [("error", VStr "Transcription failed")]) |}.
Proof.
  intros ->. split; [reflexivity|]. intros w' f e Hcall.
  change (post_transcribe env w' [("audio", f)])
    with (transcribe env w' {| file := Some f |}).
  rewrite (transcribe_run env w' {| file := Some f |} f eq_refl), Hcall. reflexivity.
Qed.

End TranscribeProperties.

Lemma transcript_round_trip_witness :
  run (post_transcribe Sample.env
         (Sample.answering (Fixture.listen (VObj [("transcript", VStr "do you sell cactus soil");
                                                  ("confidence", VNum (98 # 100))])) [] [])
         [("audio", {| buffer := [x52; x49; x46; x46] |})])
  = ([Axios (deepgram_call Sample.env [x52; x49; x46; x46])],
     Ok {| status := 200;
           content_type := Some "application/json; charset=utf-8";
           body := JsonBody (VObj [("transcript", VStr "do you sell cactus soil")]) |}).
Proof.
  eapply (transcript_round_trip Sample.env _ {| buffer := [x52; x49; x46; x46] |});
    reflexivity.
Defined.

Lemma missing_upload_answers_500_witness :
  run (post_transcribe Sample.env Sample.offline [])
  = ([], Ok {| status := 500;
            content_type := Some "application/json; charset=utf-8";
            body := JsonBody (VObj [("error", VStr "Transcription failed")]) |}).
Proof.
  apply (missing_upload_answers_500 Sample.env Sample.offline []). reflexivity.
Defined.

(** C10, as stated, fails: with the only file sent under another field the
    [audio] field is absent, yet the middleware refuses the request before
    the handler runs and Express answers its own error page, not
    [{error: "Transcription failed"}]. *)
Lemma upload_under_other_field :
  run (post_transcribe Sample.env Sample.offline
         [("recording", {| buffer := [x52; x49; x46; x46] |})])
  = ([], Ok {| status := 500;
               content_type := Some "text/html; charset=utf-8";
               body := ErrorPage |})
  /\ ErrorPage <> JsonBody (VObj [("error", VStr "Transcription failed")]).
Proof. split; [reflexivity | discriminate]. Qed.

(** ** Failing provider calls *)

Section FailureProperties.

Variable env : string -> option string.
Variable toLowerCase : string -> string.
Variable JSON_stringify : value -> string.

(** C7 (amended). On each of the four POST routes, when the outbound call is
    rejected (network failure or a status outside 2xx), the answer is status
    500 with that route's fixed [{error: ...}] body and nothing else; and so
    it is when the call of [/api/transcribe] or [/api/get-response] resolves
    with a body in which a value the handler reads through (the body,
    [results], [channels], [channels[0]], [alternatives], [alternatives[0]];
    the body, [choices], [choices[0]], [message]) is [undefined] or
    [null]. *)
Theorem failed_call_answers_500 (w : World) :
  (forall f,
      (exists e, axios_outcome w (deepgram_call env (buffer f)) = Throw e)
      \/ (exists d, axios_outcome w (deepgram_call env (buffer f)) = Ok d
                    /\ transcript_path_broken d) ->
      snd (run (post_transcribe env w [("audio", f)]))
      = Ok {| status := 500;
            content_type := Some "application/json; charset=utf-8";
            body := JsonBody (VObj [("error", VStr "Transcription failed")]) |})
  /\ (forall req,
        (exists e, store w "Products" (select_params req) = Throw e) ->
        snd (run (search_products w req))
        = Ok {| status := 500;
            content_type := Some "application/json; charset=utf-8";
            body := JsonBody (VObj [("error", VStr "Product search failed")]) |})
  /\ (forall body history,
        spread (body_conversationHistory body) = Ok history ->
        (exists e, axios_outcome w (openai_call env JSON_stringify
                                      (chat_request body history)) = Throw e)
        \/ (exists d, axios_outcome w (openai_call env JSON_stringify
                                         (chat_request body history)) = Ok d
                      /\ content_path_broken d) ->
        snd (run (post_get_response env toLowerCase JSON_stringify w body))
        = Ok {| status := 500;
            content_type := Some "application/json; charset=utf-8";
            body := JsonBody (VObj [("error", VStr "AI response failed")]) |})
  /\ (forall req,
        (exists e, axios_outcome w (elevenlabs_call env req) = Throw e) ->
        snd (run (speak env w req))
        = Ok {| status := 500;
            content_type := Some "application/json; charset=utf-8";
            body := JsonBody (VObj [("error", VStr "Text-to-speech failed")]) |}).
Proof.
  split; [|split; [|split]].
  - intros f H.
    change (post_transcribe env w [("audio", f)])
      with (transcribe env w {| file := Some f |}).
    rewrite (transcribe_run env w {| file := Some f |} f eq_refl).
    destruct H as [(e & ->)|(d & -> & Hd)]; [reflexivity|].
    unfold mbind, result_bind. rewrite (broken_transcript_path_throws d Hd).
    reflexivity.
  - intros req (e & H). rewrite search_products_run, H. reflexivity.
  - intros body history Hs H.
    rewrite (post_get_response_spread env toLowerCase JSON_stringify w body history Hs),
      get_response_run.
    destruct H as [(e & ->)|(d & -> & Hd)]; [reflexivity|].
    unfold mbind, result_bind, attribute, mbind, result_bind.
    rewrite (broken_content_path_throws d Hd). reflexivity.
  - intros req (e & H). rewrite speak_run, H. reflexivity.
Qed.

End FailureProperties.

Lemma failed_call_answers_500_witness :
  snd (run (post_transcribe Sample.env
              (Sample.answering (VObj [("err_code", VStr "Bad Request")]) [] [])
              [("audio", {| buffer := [x52; x49; x46; x46] |})]))
  = Ok {| status := 500;
            content_type := Some "application/json; charset=utf-8";
            body := JsonBody (VObj [("error", VStr "Transcription failed")]) |}.
Proof.
  apply (failed_call_answers_500 Sample.env Sample.toLowerCase Sample.JSON_stringify
           (Sample.answering (VObj [("err_code", VStr "Bad Request")]) [] [])).
  right. exists (VObj [("err_code", VStr "Bad Request")]). split; [reflexivity|].
  right. exists VUndefined. split; [reflexivity|]. left. left. reflexivity.
Defined.

(** C7, as stated, fails: a 2xx transcription body whose best alternative
    has no [transcript] lacks the expected shape, yet the route answers 200
    (with an object that serialises to [{}]). *)
Lemma missing_transcript_answers_200 :
  let d := Fixture.listen (VObj [("confidence", VNum (0 # 1))]) in
  let w := Sample.answering d [] [] in
  ~ has_transcript d
  /\ snd (run (transcribe Sample.env w Fixture.upload))
     = Ok (res_json 200 (VObj [("transcript", VUndefined)]))
  /\ wire (VObj [("transcript", VUndefined)]) = VObj [].
Proof.
  cbv zeta. split; [|split; reflexivity].
  intros [s H]. vm_compute in H. discriminate.
Qed.

(** ** POST /api/get-response: recommended products *)

Section AttributionProperties.

Variable env : string -> option string.
Variable toLowerCase : string -> string.
Variable JSON_stringify : value -> string.

(** The total test agrees with occurrence of the folded title in the folded
    reply. *)
Lemma mentioned_spec reply product :
  mentioned toLowerCase reply product = true <->
  title_in_reply toLowerCase reply product.
Proof.
  unfold mentioned, mentions, title_in_reply, mbind, result_bind. split.
  - destruct reply as [| | | |text| |]; simpl; try discriminate.
    destruct (get_prop product "title") as [t|e]; [|discriminate].
    destruct t as [| | | |title| |]; simpl; try discriminate.
    intros H. apply includes_spec in H as (before & after & H).
    exists text, title, before, after. auto.
  - intros (text & title & before & after & -> & -> & H). simpl.
    apply includes_spec. eauto.
Qed.

Lemma get_response_recommends (w : World) (req : ChatRequest) log reply recs :
  run (get_response env toLowerCase JSON_stringify w req)
  = (log, Ok (res_json 200 (VObj [("text", reply);
                                  ("recommendedProducts", VArr recs)]))) ->
  recs = take 3 (List.filter (mentioned toLowerCase reply) (availableProducts req)).
Proof.
  rewrite get_response_run. intros H.
  destruct (axios_outcome w (openai_call env JSON_stringify req)) as [d|e];
    simpl in H; [|discriminate].
  unfold attribute, mbind, result_bind in H.
  destruct (read_content d) as [ai|e]; [|discriminate].
  destruct (filter_array (mentions toLowerCase ai) (availableProducts req))
    as [kept|e] eqn:Hkept; [|discriminate].
  apply filter_array_ok in Hkept as [-> _].
  inversion H; subst. reflexivity.
Qed.

(** C1 (amended). Whenever the route answers with a reply text and a
    [recommendedProducts] list, that list is an order-preserving subsequence
    of [availableProducts] of length at most 3, and a product is in it
    exactly when it stands at a position of [availableProducts] where the
    title occurs, case folded, in the case-folded reply and fewer than three
    earlier positions have such a title: the list is the first three
    matches. *)
Theorem recommended_products_first_three (w : World) (req : ChatRequest)
        (log : list Outbound) (reply : value) (recs : list value) :
  run (get_response env toLowerCase JSON_stringify w req)
  = (log, Ok (res_json 200 (VObj [("text", reply);
                                  ("recommendedProducts", VArr recs)]))) ->
  recs `sublist_of` availableProducts req
  /\ (length recs <= 3)%nat
  /\ (forall p, p ∈ recs <->
        exists before after,
          availableProducts req = before ++ p :: after
          /\ title_in_reply toLowerCase reply p
          /\ (length (List.filter (mentioned toLowerCase reply) before) < 3)%nat)
  /\ ((length (List.filter (mentioned toLowerCase reply) (availableProducts req)) <= 3)%nat ->
      forall p, p ∈ availableProducts req ->
                (p ∈ recs <-> title_in_reply toLowerCase reply p)).
Proof.
  intros Hrun. apply get_response_recommends in Hrun. subst recs.
  split; [|split; [|split]].
  - etransitivity; [apply sublist_take | apply sublist_list_filter].
  - rewrite length_take. lia.
  - intros p. rewrite elem_of_take_filter.
    split; intros (before & after & H1 & H2 & H3); exists before, after;
      (split; [exact H1 | split; [|exact H3]]); apply mentioned_spec; exact H2.
  - intros Hfew p Hp. rewrite take_ge by exact Hfew.
    rewrite <- mentioned_spec, list_elem_of_In, filter_In, <- list_elem_of_In.
    tauto.
Qed.

End AttributionProperties.

Lemma recommended_products_first_three_witness :
  [Fixture.product "Cactus Mix"] `sublist_of` Fixture.catalog.
Proof.
  apply (recommended_products_first_three
           Sample.env Sample.toLowerCase Sample.JSON_stringify
           (Sample.answering (Fixture.completion (VStr "Our CACTUS MIX drains fast.")) [] [])
           (Fixture.chat "soil for succulents?" Fixture.catalog)
           [Axios (openai_call Sample.env Sample.JSON_stringify
                     (Fixture.chat "soil for succulents?" Fixture.catalog))]
           (VStr "Our CACTUS MIX drains fast.")
           [Fixture.product "Cactus Mix"]).
  reflexivity.
Defined.

(** C1, as stated, fails: with four products all named in the reply, the
    fourth title occurs in the reply text but the product is not returned. *)
Lemma fourth_match_not_recommended :
  let req := Fixture.chat "which soils do you have?" Fixture.catalog in
  let w := Sample.answering (Fixture.completion (VStr Fixture.all_four)) [] [] in
  let p := Fixture.product "Seed Starter" in
  exists log recs,
    run (get_response Sample.env Sample.toLowerCase Sample.JSON_stringify w req)
    = (log, Ok (res_json 200 (VObj [("text", VStr Fixture.all_four);
                                    ("recommendedProducts", VArr recs)])))
    /\ p ∈ availableProducts req
    /\ title_in_reply Sample.toLowerCase (VStr Fixture.all_four) p
    /\ p ∉ recs.
Proof.
  cbv zeta. eexists _, _. split; [vm_compute; reflexivity|].
  split; [|split].
  - unfold Fixture.chat, Fixture.catalog. simpl.
    do 3 apply list_elem_of_further. apply list_elem_of_here.
  - apply mentioned_spec. vm_compute. reflexivity.
  - intros H. repeat (apply elem_of_cons in H as [H|H]; [discriminate|]).
    inversion H.
Qed.

(** ** POST /api/search-products: the filter expression *)

Lemma render_tags (ts : list string) :
  map render (map TagFound ts) = map tagCondition ts.
Proof. induction ts as [|t ts IH]; simpl; [|rewrite IH]; reflexivity. Qed.

Lemma join_cons sep (x y : string) (rest : list string) :
  join sep (x :: y :: rest) = x +:+ sep +:+ join sep (y :: rest).
Proof. reflexivity. Qed.

(** The string built by the handler is the rendering of the formula the
    search policy prescribes. *)
Lemma filterFormula_renders (req : SearchRequest) :
  filterFormula req = render (filter_formula req).
Proof.
  unfold filterFormula, filter_formula, category_clause, tag_clause, truthy_str,
    interpolate.
  destruct (category req) as [[|c cs]|], (tags req) as [[|t ts]|];
    try generalize (t :: ts) as l; intros;
    cbn [render app map join]; rewrite ?render_tags, ?append_assoc;
    reflexivity.
Qed.

(** C4. With no category and no tags (absent, or an empty list) the filter
    expression is the in-stock clause alone, [AND({in_stock} = TRUE())]. *)
Theorem filter_without_category_and_tags (req : SearchRequest) :
  category req = None ->
  tags req = None \/ tags req = Some [] ->
  filterFormula req = "AND({in_stock} = TRUE())"
  /\ filterFormula req = render (AND [InStock]).
Proof.
  intros Hc Ht. unfold filterFormula. rewrite Hc.
  destruct Ht as [-> | ->]; split; reflexivity.
Qed.

Lemma filter_without_category_and_tags_witness :
  filterFormula {| query := Some "soil"; category := None; tags := Some [] |}
  = "AND({in_stock} = TRUE())".
Proof.
  apply (filter_without_category_and_tags
           {| query := Some "soil"; category := None; tags := Some [] |}).
  - reflexivity.
  - right. reflexivity.
Defined.

(** C5. With a non-empty tag list the filter expression is the conjunction
    [AND(...)] of the in-stock clause, the category clause when there is
    one, and one [OR(...)] group holding, per supplied tag and in order, a
    [FIND('tag', {tags})] containment test. *)
Theorem filter_with_tags (req : SearchRequest) (ts : list string) :
  tags req = Some ts ->
  ts <> [] ->
  filterFormula req
  = render (AND (InStock :: category_clause req ++ [OR (map TagFound ts)]))
  /\ map render (map TagFound ts)
     = map (fun tag => "FIND('" +:+ tag +:+ "', {tags})") ts
  /\ length (map TagFound ts) = length ts.
Proof.
  intros Ht Hne. split; [|split].
  - rewrite filterFormula_renders. unfold filter_formula, tag_clause.
    rewrite Ht. destruct ts; [contradiction | reflexivity].
  - apply render_tags.
  - apply length_map.
Qed.

Lemma filter_with_tags_witness :
  filterFormula (Fixture.search (Some "potting-soil") (Some ["organic"; "drainage"]))
  = "AND({in_stock} = TRUE(), {category} = 'potting-soil', OR(FIND('organic', {tags}), FIND('drainage', {tags})))".
Proof.
  etransitivity.
  - apply (filter_with_tags
             (Fixture.search (Some "potting-soil") (Some ["organic"; "drainage"]))
             ["organic"; "drainage"]); [reflexivity | discriminate].
  - reflexivity.
Defined.

(** C6. Two search requests that differ only in [query] build the same
    filter expression and the same store query, and the whole exchange
    (the call made and the answer given) is the same. *)
Theorem query_never_used (w : World) (q1 q2 c : option string)
        (ts : option (list string)) :
  let req1 := {| query := q1; category := c; tags := ts |} in
  let req2 := {| query := q2; category := c; tags := ts |} in
  filterFormula req1 = filterFormula req2
  /\ select_params req1 = select_params req2
  /\ run (search_products w req1) = run (search_products w req2).
Proof. cbv zeta. repeat split. Qed.

(** C3 (amended). For a category that is present and not the empty string,
    the filter expression carries, right after the in-stock clause, the
    equality clause [{category} = '...'] with the category text copied
    between the quotes character for character; and there is a category
    containing a quote for which the expression ends inside an unclosed
    string literal. *)
Theorem category_interpolated_verbatim (req : SearchRequest) (c : string) :
  category req = Some c ->
  c <> "" ->
  (exists after,
     filterFormula req
     = "AND({in_stock} = TRUE(), " +:+ "{category} = '" +:+ c +:+ "'" +:+ after)
  /\ category_clause req = [CategoryIs c]
  /\ (exists c', includes c' "'" = true
                 /\ literals_closed
                      (filterFormula {| query := query req;
                                        category := Some c';
                                        tags := None |}) = false).
Proof.
  intros Hc Hne. split; [|split].
  - rewrite filterFormula_renders.
    unfold filter_formula, category_clause. rewrite Hc.
    destruct c as [|a c]; [contradiction|].
    destruct (tag_clause req) as [|f fs] eqn:Ht.
    + exists ")". cbn [render app map join]. rewrite !append_assoc. reflexivity.
    + unfold tag_clause in Ht. destruct (tags req) as [[|t ts]|]; try discriminate.
      inversion Ht; subst.
      exists (", " +:+ render (OR (map TagFound (t :: ts))) +:+ ")").
      cbn [render app map join]. rewrite !append_assoc. reflexivity.
  - unfold category_clause. rewrite Hc. destruct c; [contradiction | reflexivity].
  - exists "O'Brien". split; reflexivity.
Qed.

Lemma category_interpolated_verbatim_witness :
  exists after,
    filterFormula (Fixture.search (Some "potting-soil") (Some ["organic"]))
    = "AND({in_stock} = TRUE(), " +:+ "{category} = '" +:+ "potting-soil" +:+ "'" +:+ after.
Proof.
  apply (category_interpolated_verbatim
           (Fixture.search (Some "potting-soil") (Some ["organic"]))
           "potting-soil"); [reflexivity | discriminate].
Defined.

(** C3, as stated, fails: a request whose category is present but is the
    empty string gets no category clause at all. *)
Lemma empty_category_has_no_clause :
  let req := Fixture.search (Some "") (Some ["organic"]) in
  category req = Some ""
  /\ filterFormula req = "AND({in_stock} = TRUE(), OR(FIND('organic', {tags})))"
  /\ includes (filterFormula req) "{category}" = false.
Proof. cbv zeta. repeat split. Qed.

(** ** POST /api/search-products: the normalized product *)

Lemma keys_wire_object (props : list (string * value)) :
  keys (wire (VObj props))
  = map fst (List.filter (fun kv => is_defined (snd kv)) props).
Proof.
  simpl. induction props as [|[k v] props IH]; [reflexivity|].
  destruct v; simpl; rewrite IH; reflexivity.
Qed.

Lemma product_of_record_projection (r : AirtableRecord) :
  product_of_record r = projection r.
Proof. reflexivity. Qed.

(** C2 (amended). Every record the store returns appears in the answer, in
    order, as an object with exactly the properties [id], [product_id],
    [title], [brand], [category], [tags], [short_description], [price],
    [bag_size_cf], [in_stock], [image_url], [use_case], [voice_script_30S]:
    [id] is the record id and every other property is the cell of the store
    column of the same name, hyphens written as underscores, which renames
    exactly the columns [bag-size-cf] and [use-case]; on the wire a property
    is present exactly when its cell is defined. *)
Theorem product_projection (w : World) (req : SearchRequest)
        (records : list AirtableRecord) :
  store w "Products" (select_params req) = Ok records ->
  snd (run (search_products w req))
  = Ok (res_json 200 (VObj [("products", VArr (map product_of_record records))]))
  /\ (forall r,
        product_of_record r = projection r
        /\ keys (product_of_record r)
           = ["id"; "product_id"; "title"; "brand"; "category"; "tags";
              "short_description"; "price"; "bag_size_cf"; "in_stock";
              "image_url"; "use_case"; "voice_script_30S"]
        /\ get_prop (product_of_record r) "id" = Ok (VStr (record_id r))
        /\ (forall column, In column store_columns ->
              get_prop (product_of_record r) (underscored column)
              = Ok (get r column))
        /\ keys (wire (product_of_record r))
           = "id" :: map underscored
                       (List.filter (fun column => is_defined (get r column))
                                    store_columns))
  /\ List.filter (fun column => negb (String.eqb (underscored column) column))
                 store_columns
     = ["bag-size-cf"; "use-case"].
Proof.
  intros Hstore. split; [|split].
  - rewrite search_products_run, Hstore. reflexivity.
  - intros r. rewrite product_of_record_projection.
    split; [reflexivity|]. split; [reflexivity|]. split; [reflexivity|]. split.
    + intros column Hin. simpl in Hin.
      repeat (destruct Hin as [<-|Hin]; [reflexivity|]). contradiction.
    + unfold projection. rewrite keys_wire_object.
      cbn [List.filter snd is_defined map fst]. f_equal.
      induction store_columns as [|c cs IH]; [reflexivity|].
      cbn [List.filter map snd]. destruct (is_defined (get r c)); simpl;
        rewrite IH; reflexivity.
  - reflexivity.
Qed.

Lemma product_projection_witness :
  snd (run (search_products (Sample.answering VNull [] [Fixture.soil])
              (Fixture.search (Some "potting-soil") (Some ["organic"; "drainage"]))))
  = Ok (res_json 200 (VObj [("products", VArr (map product_of_record [Fixture.soil]))])).
Proof.
  apply (product_projection (Sample.answering VNull [] [Fixture.soil])
           (Fixture.search (Some "potting-soil") (Some ["organic"; "drainage"]))
           [Fixture.soil]).
  reflexivity.
Defined.

(** C2, as stated, fails: the product built from a record with every column
    filled has no property [bag_size] and none called [voice_script]. *)
Lemma product_has_no_bag_size :
  let w := Sample.answering VNull [] [Fixture.soil] in
  exists p,
    snd (run (search_products w (Fixture.search None None)))
    = Ok (res_json 200 (VObj [("products", VArr [p])]))
    /\ keys p <> ["id"; "product_id"; "title"; "brand"; "category"; "tags";
                  "short_description"; "price"; "bag_size"; "in_stock";
                  "image_url"; "use_case"; "voice_script"]
    /\ get_prop p "bag_size" = Ok VUndefined
    /\ get_prop p "voice_script" = Ok VUndefined
    /\ get_prop p "bag_size_cf" = Ok (VNum (2 # 1)).
Proof.
  cbv zeta. eexists. split; [vm_compute; reflexivity|].
  split; [discriminate|]. repeat split.
Qed.

(** ** POST /api/get-response: what is sent to the model *)

Section PromptProperties.

Variable env : string -> option string.
Variable toLowerCase : string -> string.
Variable JSON_stringify : value -> string.

(** C9 (amended). Every request whose [conversationHistory] is an array
    makes exactly one call, to the chat completions endpoint, whose
    [messages] are a [system] turn, then the elements of
    [conversationHistory] as they came, then a final [user] turn whose
    content is [userMessage]; and the content of the system turn ends with
    ["Current customer question: "] followed by [userMessage].  The user's
    message is thus sent twice. *)
Theorem user_message_sent_twice (w : World) (body : ChatBody) (history : list value) :
  body_conversationHistory body = VArr history ->
  exists preamble c payload,
    fst (run (post_get_response env toLowerCase JSON_stringify w body)) = [Axios c]
    /\ url c = "https://api.openai.com/v1/chat/completions"
    /\ data c = BodyJson payload
    /\ get_prop payload "messages"
       = Ok (VArr (VObj [("role", VStr "system");
                         ("content",
                          VStr (preamble +:+ "Current customer question: "
                                         +:+ body_userMessage body))]
                     :: history
                     ++ [VObj [("role", VStr "user");
                               ("content", VStr (body_userMessage body))]])).
Proof.
  intros Hh.
  exists ("You are a helpful garden center employee specializing in soil products. 
Your job is to help customers find the right soil products for their needs.

Available products:
" +:+ JSON_stringify (VArr (body_availableProducts body)) +:+ "

Guidelines:
- Be friendly, warm, and patient (many customers are 55-70 years old)
- Ask clarifying questions if needed (indoor/outdoor, vegetables/flowers, containers/beds)
- Recommend specific products from the available list
- Mention key benefits (drainage, nutrients, organic, etc.)
- Keep responses concise (2-4 sentences)
- If you don't know something, offer to get a staff member

").
  exists (openai_call env JSON_stringify (chat_request body history)).
  eexists. split; [|split; [|split]].
  - rewrite (post_get_response_spread env toLowerCase JSON_stringify w body history)
      by (rewrite Hh; reflexivity).
    rewrite get_response_run. reflexivity.
  - reflexivity.
  - reflexivity.
  - cbn [get_prop assoc String.eqb]. unfold messages, systemPrompt, turn, chat_request.
    cbn [userMessage conversationHistory availableProducts app].
    rewrite !append_assoc. reflexivity.
Qed.

End PromptProperties.

Lemma user_message_sent_twice_witness :
  exists preamble c payload,
    fst (run (post_get_response Sample.env Sample.toLowerCase Sample.JSON_stringify
                Sample.offline
                {| body_userMessage := "soil for roses?";
                   body_conversationHistory :=
                     VArr [VObj [("role", VStr "user"); ("content", VStr "hello")];
                           VObj [("role", VStr "assistant"); ("content", VStr "Hi!")]];
                   body_availableProducts := Fixture.catalog |})) = [Axios c]
    /\ url c = "https://api.openai.com/v1/chat/completions"
    /\ data c = BodyJson payload
    /\ get_prop payload "messages"
       = Ok (VArr (VObj [("role", VStr "system");
                         ("content",
                          VStr (preamble +:+ "Current customer question: "
                                         +:+ "soil for roses?"))]
                     :: [VObj [("role", VStr "user"); ("content", VStr "hello")];
                         VObj [("role", VStr "assistant"); ("content", VStr "Hi!")]]
                     ++ [VObj [("role", VStr "user");
                               ("content", VStr "soil for roses?")]])).
Proof.
  apply (user_message_sent_twice Sample.env Sample.toLowerCase Sample.JSON_stringify
           Sample.offline
           {| body_userMessage := "soil for roses?";
              body_conversationHistory :=
                VArr [VObj [("role", VStr "user"); ("content", VStr "hello")];
                      VObj [("role", VStr "assistant"); ("content", VStr "Hi!")]];
              body_availableProducts := Fixture.catalog |}).
  reflexivity.
Defined.

(** C9, as stated, fails: a request without [conversationHistory] sends
    nothing to the model, since spreading [undefined] throws before the
    call; it is answered 500 [{error: "AI response failed"}]. *)
Lemma missing_history_sends_nothing :
  run (post_get_response Sample.env Sample.toLowerCase Sample.JSON_stringify
         (Sample.answering (Fixture.completion (VStr "Hello!")) [] [])
         {| body_userMessage := "soil for roses?";
            body_conversationHistory := VUndefined;
            body_availableProducts := Fixture.catalog |})
  = ([], Ok {| status := 500;
               content_type := Some "application/json; charset=utf-8";
               body := JsonBody (VObj [("error", VStr "AI response failed")]) |}).
Proof. reflexivity. Qed.

(** ** Worked requests *)

(** A reply naming a product in another letter case recommends it. *)
Example ecomix_recommended :
  snd (run (get_response Sample.env Sample.toLowerCase Sample.JSON_stringify
              (Sample.answering
                 (Fixture.completion (VStr "I would pick the ECOMIX potting SOIL."))
                 [] [])
              (Fixture.chat "soil for pots?" [Fixture.product "EcoMix Potting Soil"])))
  = Ok (res_json 200
          (VObj [("text", VStr "I would pick the ECOMIX potting SOIL.");
                 ("recommendedProducts", VArr [Fixture.product "EcoMix Potting Soil"])])).
Proof. reflexivity. Qed.

(** A completion without text is answered 200 when no product is scanned, and
    500 as soon as one is. *)
Example null_content_without_products :
  snd (run (get_response Sample.env Sample.toLowerCase Sample.JSON_stringify
              (Sample.answering (Fixture.completion VNull) [] [])
              (Fixture.chat "hello" [])))
  = Ok (res_json 200 (VObj [("text", VNull); ("recommendedProducts", VArr [])])).
Proof. reflexivity. Qed.

Example null_content_with_products :
  snd (run (get_response Sample.env Sample.toLowerCase Sample.JSON_stringify
              (Sample.answering (Fixture.completion VNull) [] [])
              (Fixture.chat "hello" Fixture.catalog)))
  = Ok (res_error "AI response failed").
Proof. reflexivity. Qed.

(** A provider body without [results] is answered 500. *)
Example error_body_answers_500 :
  snd (run (transcribe Sample.env
              (Sample.answering (VObj [("err_code", VStr "Bad Request")]) [] [])
              Fixture.upload))
  = Ok (res_error "Transcription failed").
Proof. reflexivity. Qed.

Example plain_category_is_closed :
  literals_closed (filterFormula (Fixture.search (Some "potting-soil")
                                                 (Some ["organic"; "drainage"])))
  = true.
Proof. reflexivity. Qed.

Example quoted_category_is_open :
  filterFormula (Fixture.search (Some "O'Brien") None)
  = "AND({in_stock} = TRUE(), {category} = 'O'Brien')"
  /\ literals_closed (filterFormula (Fixture.search (Some "O'Brien") None)) = false.
Proof. split; reflexivity. Qed.

Example speak_relays_audio :
  run (speak Sample.env (Sample.answering VNull [x49; x44; x33] [])
             {| text := "Hello" |})
  = ([Axios (elevenlabs_call Sample.env {| text := "Hello" |})],
     Ok {| status := 200; content_type := Some "audio/mpeg";
           body := RawBody [x49; x44; x33] |}).
Proof. reflexivity. Qed.

(** * Further properties of the handlers *)

(** ** What every route does, whatever the providers answer *)

Section RouteProperties.

Variable env : string -> option string.
Variable toLowerCase : string -> string.
Variable JSON_stringify : value -> string.

(** X1. Whatever the file parts or the parsed body, and however the
    provider call settles (resolved or rejected), a POST route ends in a
    response: one with status 200, the route's fixed 500 [{error: ...}] object, or, on
    [/api/transcribe] only, the error page Express sends when the upload
    middleware refuses the request.  No exception escapes a handler. *)
Theorem routes_never_throw (w : World) :
  (forall files, exists response,
      snd (run (post_transcribe env w files)) = Ok response
      /\ (status response = 200
          \/ response = {| status := 500;
                      content_type := Some "application/json; charset=utf-8";
                      body := JsonBody (VObj [("error", VStr "Transcription failed")]) |}
          \/ response = {| status := 500;
                           content_type := Some "text/html; charset=utf-8";
                           body := ErrorPage |}))
  /\ (forall req, exists response,
        snd (run (search_products w req)) = Ok response
        /\ (status response = 200
            \/ response = {| status := 500;
                        content_type := Some "application/json; charset=utf-8";
                        body := JsonBody (VObj [("error", VStr "Product search failed")]) |}))
  /\ (forall body, exists response,
        snd (run (post_get_response env toLowerCase JSON_stringify w body)) = Ok response
        /\ (status response = 200
            \/ response = {| status := 500;
                        content_type := Some "application/json; charset=utf-8";
                        body := JsonBody (VObj [("error", VStr "AI response failed")]) |}))
  /\ (forall req, exists response,
        snd (run (speak env w req)) = Ok response
        /\ (status response = 200
            \/ response = {| status := 500;
                        content_type := Some "application/json; charset=utf-8";
                        body := JsonBody (VObj [("error", VStr "Text-to-speech failed")]) |})).
Proof.
  split; [|split; [|split]].
  - intros files. unfold post_transcribe.
    destruct (upload_single "audio" files) as [[f|]|e].
    + rewrite (transcribe_run env w {| file := Some f |} f eq_refl). simpl.
      destruct (axios_outcome w (deepgram_call env (buffer f)) ≫= read_transcript);
        eexists; (split; [reflexivity|]); [left | right; left]; reflexivity.
    + rewrite (transcribe_no_file env w {| file := None |} eq_refl). eexists.
      split; [reflexivity | right; left; reflexivity].
    + eexists. split; [reflexivity | right; right; reflexivity].
  - intros req. rewrite search_products_run. simpl.
    destruct (store w "Products" (select_params req));
      eexists; (split; [reflexivity|]); [left|right]; reflexivity.
  - intros body.
    destruct (spread (body_conversationHistory body)) as [history|e] eqn:Hs.
    + rewrite (post_get_response_spread env toLowerCase JSON_stringify w body history Hs),
        get_response_run. simpl.
      destruct (axios_outcome w (openai_call env JSON_stringify (chat_request body history))
                  ≫= attribute toLowerCase (chat_request body history)) as [[ai kept]|e];
        eexists; (split; [reflexivity|]); [left|right]; reflexivity.
    + rewrite (post_get_response_not_iterable env toLowerCase JSON_stringify w body e Hs).
      eexists. split; [reflexivity | right; reflexivity].
  - intros req. rewrite speak_run. simpl.
    destruct (axios_outcome w (elevenlabs_call env req));
      eexists; (split; [reflexivity|]); [left|right]; reflexivity.
Qed.

(** X2. The outbound calls of a route are fixed by the request alone: two
    worlds see the same calls, and there is never more than one, so a
    failed call is not retried. *)
Theorem calls_fixed_by_request (w1 w2 : World) :
  (forall files,
      fst (run (post_transcribe env w1 files)) = fst (run (post_transcribe env w2 files))
      /\ (length (fst (run (post_transcribe env w1 files))) <= 1)%nat)
  /\ (forall req,
        fst (run (search_products w1 req)) = fst (run (search_products w2 req))
        /\ (length (fst (run (search_products w1 req))) <= 1)%nat)
  /\ (forall body,
        fst (run (post_get_response env toLowerCase JSON_stringify w1 body))
        = fst (run (post_get_response env toLowerCase JSON_stringify w2 body))
        /\ (length (fst (run (post_get_response env toLowerCase JSON_stringify w1 body)))
            <= 1)%nat)
  /\ (forall req,
        fst (run (speak env w1 req)) = fst (run (speak env w2 req))
        /\ (length (fst (run (speak env w1 req))) <= 1)%nat).
Proof.
  split; [|split; [|split]].
  - intros files. unfold post_transcribe.
    destruct (upload_single "audio" files) as [[f|]|e].
    + rewrite !(transcribe_run env _ {| file := Some f |} f eq_refl). simpl.
      split; [reflexivity | lia].
    + rewrite !(transcribe_no_file env _ {| file := None |} eq_refl). simpl.
      split; [reflexivity | lia].
    + split; [reflexivity | simpl; lia].
  - intros req. rewrite !search_products_run. simpl. split; [reflexivity | lia].
  - intros body.
    destruct (spread (body_conversationHistory body)) as [history|e] eqn:Hs.
    + rewrite !(post_get_response_spread env toLowerCase JSON_stringify _ body history Hs),
        !get_response_run. simpl. split; [reflexivity | lia].
    + rewrite !(post_get_response_not_iterable env toLowerCase JSON_stringify _ body e Hs).
      simpl. split; [reflexivity | lia].
  - intros req. rewrite !speak_run. simpl. split; [reflexivity | lia].
Qed.

End RouteProperties.

(** ** The filter expression, for every request *)

(** X4. Whatever the category and the tags, the filter expression begins
    with [AND({in_stock} = TRUE()] and ends with [)], and what stands
    between the two is either nothing or begins a further argument with a
    comma. *)
Theorem filter_always_requires_stock (req : SearchRequest) :
  exists rest,
    filterFormula req = "AND({in_stock} = TRUE()" +:+ rest +:+ ")"
    /\ (rest = "" \/ starts_with ", " rest = true).
Proof.
  exists ((if truthy_str (category req)
           then ", {category} = '" +:+ interpolate (category req) +:+ "'"
           else "")
          +:+ match tags req with
              | Some ((_ :: _) as l) =>
                  ", OR(" +:+ join ", " (map tagCondition l) +:+ ")"
              | _ => ""
              end).
  unfold filterFormula.
  destruct (truthy_str (category req)), (tags req) as [[|t ts]|];
    cbv zeta; (split; [rewrite ?append_assoc, ?append_nil_r; reflexivity|]);
    first [left; reflexivity | right; reflexivity].
Qed.

Lemma join_elem (sep x : string) (l : list string) :
  In x l -> exists before after, join sep l = before +:+ x +:+ after.
Proof.
  induction l as [|y l IH]; [contradiction|]. intros [->|Hin].
  - destruct l as [|z l].
    + exists "", "". simpl. rewrite append_nil_r. reflexivity.
    + exists "", (sep +:+ join sep (z :: l)). reflexivity.
  - destruct (IH Hin) as (b & a & Hj). destruct l as [|z l]; [contradiction|].
    exists (y +:+ sep +:+ b), a. rewrite join_cons, Hj, !append_assoc.
    reflexivity.
Qed.

(** X5. Every supplied tag is copied character for character into a
    [FIND('...', {tags})] test of the filter expression; nothing is escaped,
    and there is a tag containing a quote for which the expression ends
    inside an unclosed string literal. *)
Theorem tag_interpolated_verbatim (req : SearchRequest) (ts : list string)
        (tag : string) :
  tags req = Some ts ->
  In tag ts ->
  (exists before after,
     filterFormula req = before +:+ "FIND('" +:+ tag +:+ "', {tags})" +:+ after)
  /\ (exists tag', includes tag' "'" = true
                   /\ literals_closed
                        (filterFormula {| query := query req;
                                          category := None;
                                          tags := Some [tag'] |}) = false).
Proof.
  intros Ht Hin. split.
  - destruct (join_elem ", " (tagCondition tag) (map tagCondition ts))
      as (b & a & Hj); [apply in_map; exact Hin|].
    unfold filterFormula. rewrite Ht.
    destruct ts as [|t ts]; [contradiction|]. cbv zeta. rewrite Hj.
    unfold tagCondition.
    match goal with
    | |- context [if ?c then ?x else ?y] =>
        exists ((if c then x else y) +:+ ", OR(" +:+ b), (a +:+ ")" +:+ ")")
    end.
    rewrite !append_assoc. reflexivity.
  - exists "it's". split; reflexivity.
Qed.

Lemma tag_interpolated_verbatim_witness :
  exists before after,
    filterFormula (Fixture.search None (Some ["organic"; "drainage"]))
    = before +:+ "FIND('" +:+ "drainage" +:+ "', {tags})" +:+ after.
Proof.
  apply (tag_interpolated_verbatim
           (Fixture.search None (Some ["organic"; "drainage"]))
           ["organic"; "drainage"] "drainage").
  - reflexivity.
  - simpl. right. left. reflexivity.
Defined.

Lemma scan_plain_app (a b : string) (st : lex_state) :
  plain a = true -> scan st (a +:+ b) = scan st b.
Proof.
  induction a as [|c a IH]; [reflexivity|]. intros H. simpl in H.
  apply andb_true_iff in H as [Hc Ha]. unfold plain_char in Hc.
  apply negb_true_iff, orb_false_iff in Hc as [Hc Hb].
  apply orb_false_iff in Hc as [Hs Hd].
  rewrite append_cons. destruct st; simpl; rewrite ?Hs, ?Hd, ?Hb; auto.
Qed.

Lemma scan_quoted (c rest : string) :
  plain c = true ->
  scan Outside ("'" +:+ c +:+ "'" +:+ rest) = scan Outside rest.
Proof.
  intros H. change (scan InSingle (c +:+ "'" +:+ rest) = scan Outside rest).
  rewrite scan_plain_app by exact H. reflexivity.
Qed.

Lemma scan_category (c rest : string) :
  plain c = true ->
  scan Outside (", {category} = '" +:+ c +:+ "'" +:+ rest) = scan Outside rest.
Proof.
  intros H.
  change (scan Outside (", {category} = " +:+ "'" +:+ c +:+ "'" +:+ rest)
          = scan Outside rest).
  rewrite scan_plain_app by reflexivity. apply scan_quoted, H.
Qed.

Lemma scan_tagCondition (tag rest : string) :
  plain tag = true ->
  scan Outside (tagCondition tag +:+ rest) = scan Outside rest.
Proof.
  intros H. unfold tagCondition. rewrite !append_assoc.
  change (scan Outside ("FIND(" +:+ "'" +:+ tag +:+ "'" +:+ ", {tags})" +:+ rest)
          = scan Outside rest).
  rewrite scan_plain_app by reflexivity. rewrite scan_quoted by exact H.
  apply scan_plain_app. reflexivity.
Qed.

Lemma scan_tagConditions (ts : list string) (rest : string) :
  forallb plain ts = true ->
  scan Outside (join ", " (map tagCondition ts) +:+ rest) = scan Outside rest.
Proof.
  induction ts as [|t ts IH]; [reflexivity|]. intros H.
  apply andb_true_iff in H as [Ht Hts]. destruct ts as [|t' ts].
  - apply scan_tagCondition, Ht.
  - cbn [map]. rewrite join_cons, !append_assoc.
    rewrite scan_tagCondition by exact Ht.
    rewrite scan_plain_app by reflexivity. apply IH, Hts.
Qed.

(** X6. When neither the category nor any tag contains a quote or a
    backslash, every string literal of the filter expression is closed. *)
Theorem plain_request_closes_literals (req : SearchRequest) :
  plain_request req = true ->
  literals_closed (filterFormula req) = true.
Proof.
  unfold plain_request, literals_closed. intros H.
  apply andb_true_iff in H as [Hc Ht].
  assert (scan Outside (filterFormula req) = Outside) as ->; [|reflexivity].
  unfold filterFormula.
  destruct (category req) as [[|a cs]|], (tags req) as [[|t ts]|];
    cbn [truthy_str interpolate]; rewrite ?append_assoc;
    rewrite (scan_plain_app "AND({in_stock} = TRUE()") by reflexivity;
    rewrite ?scan_category by exact Hc;
    try reflexivity;
    rewrite (scan_plain_app ", OR(") by reflexivity;
    rewrite scan_tagConditions by exact Ht; reflexivity.
Qed.

Lemma plain_request_closes_literals_witness :
  literals_closed
    (filterFormula (Fixture.search (Some "potting-soil") (Some ["organic"; "drainage"])))
  = true.
Proof.
  apply (plain_request_closes_literals
           (Fixture.search (Some "potting-soil") (Some ["organic"; "drainage"]))).
  reflexivity.
Defined.

(** X7. A category is not confined to its own clause: a category made of
    [c1], the text ['], [{category} = '] and [c2] yields, character for
    character, the expression with two category clauses, one for [c1] and
    one for [c2]. *)
Theorem category_injects_clause (q : option string) (c1 c2 : string)
        (ts : option (list string)) :
  filterFormula {| query := q;
                   category := Some (c1 +:+ "', {category} = '" +:+ c2);
                   tags := ts |}
  = render (AND (InStock :: CategoryIs c1 :: CategoryIs c2
                   :: tag_clause {| query := q; category := None; tags := ts |})).
Proof.
  rewrite filterFormula_renders. unfold filter_formula, category_clause, tag_clause.
  cbn [category tags].
  assert (exists a s, c1 +:+ "', {category} = '" +:+ c2 = String a s) as (a & s & E)
    by (destruct c1; eexists _, _; reflexivity).
  rewrite E.
  destruct ts as [[|t ts]|]; try generalize (t :: ts) as l; intros;
    cbn [render app map join]; rewrite <- E, ?append_assoc; reflexivity.
Qed.

(** ** POST /api/get-response: when the scan of the products succeeds *)

Lemma filter_array_throws callback (l : list value) (x : value) :
  In x l ->
  (exists e, callback x = Throw e) ->
  exists e, filter_array callback l = Throw e.
Proof.
  intros Hin [e Hx]. induction l as [|y l IH]; [contradiction|].
  simpl. unfold mbind, result_bind.
  destruct (callback y) as [b|e'] eqn:Hy; [|eauto].
  destruct Hin as [->|Hin]; [congruence|].
  destruct (IH Hin) as [e' ->]. eauto.
Qed.

Section ScanProperties.

Variable env : string -> option string.
Variable toLowerCase : string -> string.
Variable JSON_stringify : value -> string.

Lemma mentions_needs_title reply product :
  ~ has_title product ->
  exists e, mentions toLowerCase reply product = Throw e.
Proof.
  intros Hno. unfold mentions, mbind, result_bind.
  destruct (call_toLowerCase toLowerCase reply) as [r|e]; [|eauto].
  destruct (get_prop product "title") as [t|e] eqn:Ht; [|eauto].
  destruct t; simpl; eauto. exfalso. apply Hno. exists s. exact Ht.
Qed.


(** X8. One product without a string [title] fails the whole request: the
    call to the model is still made, but whatever it answers the response
    is 500 [{error: "AI response failed"}]. *)
Theorem untitled_product_fails_request (w : World) (req : ChatRequest)
        (product : value) :
  In product (availableProducts req) ->
  ~ has_title product ->
  run (get_response env toLowerCase JSON_stringify w req)
  = ([Axios (openai_call env JSON_stringify req)],
     Ok {| status := 500;
           content_type := Some "application/json; charset=utf-8";
           body := JsonBody (VObj [("error", VStr "AI response failed")]) |}).
Proof.
  intros Hin Hno. rewrite get_response_run. do 2 f_equal.
  destruct (axios_outcome w (openai_call env JSON_stringify req)) as [d|e];
    simpl; [|reflexivity].
  unfold attribute, mbind, result_bind.
  destruct (read_content d) as [ai|e]; [|reflexivity].
  destruct (filter_array_throws (mentions toLowerCase ai) _ product Hin
              (mentions_needs_title ai product Hno)) as [e ->].
  reflexivity.
Qed.




End ScanProperties.

Lemma untitled_product_fails_request_witness :
  run (get_response Sample.env Sample.toLowerCase Sample.JSON_stringify
         (Sample.answering (Fixture.completion (VStr Fixture.all_four)) [] [])
         (Fixture.chat "hello" [Fixture.product "Cactus Mix";
                                VObj [("name", VStr "Seed Starter")]]))
  = ([Axios (openai_call Sample.env Sample.JSON_stringify
               (Fixture.chat "hello" [Fixture.product "Cactus Mix";
                                      VObj [("name", VStr "Seed Starter")]]))],
     Ok (res_error "AI response failed")).
Proof.
  apply (untitled_product_fails_request
           Sample.env Sample.toLowerCase Sample.JSON_stringify _
           (Fixture.chat "hello" [Fixture.product "Cactus Mix";
                                  VObj [("name", VStr "Seed Starter")]])
           (VObj [("name", VStr "Seed Starter")])).
  - simpl. right. left. reflexivity.
  - intros [title H]. vm_compute in H. discriminate.
Defined.




(** ** POST /api/transcribe: which part of the provider's body is used *)

Section TranscriptProperties.

Variable env : string -> option string.

(** X12. A 2xx transcription body with an empty [channels] array, or whose
    first channel has an empty [alternatives] array, is answered 500
    [{error: "Transcription failed"}], not with an empty transcript. *)
Theorem empty_channels_answer_500 (w : World) (req : TranscribeRequest)
        (f : UploadedFile) (d results channels : value) :
  file req = Some f ->
  axios_outcome w (deepgram_call env (buffer f)) = Ok d ->
  get_prop d "results" = Ok results ->
  get_prop results "channels" = Ok channels ->
  channels = VArr []
  \/ (exists channel rest,
        channels = VArr (channel :: rest)
        /\ get_prop channel "alternatives" = Ok (VArr [])) ->
  snd (run (transcribe env w req))
  = Ok {| status := 500;
          content_type := Some "application/json; charset=utf-8";
          body := JsonBody (VObj [("error", VStr "Transcription failed")]) |}.
Proof.
  intros Hfile Hcall Hres Hch Hempty.
  rewrite (transcribe_run env w req f Hfile), Hcall. simpl.
  unfold read_transcript, mbind, result_bind. rewrite Hres, Hch.
  destruct Hempty as [->|(channel & rest & -> & Halt)]; simpl;
    [|rewrite Halt]; reflexivity.
Qed.

(** X13. Only the first alternative of the first channel is read: when it
    is an object, the route answers 200 with whatever that object holds
    under [transcript] ([undefined] when it holds nothing), and neither the
    other channels nor the other alternatives change the answer. *)
Theorem first_alternative_only (w : World) (req : TranscribeRequest)
        (f : UploadedFile) (d results channel : value) (channels alternatives : list value)
        (props : list (string * value)) :
  file req = Some f ->
  axios_outcome w (deepgram_call env (buffer f)) = Ok d ->
  get_prop d "results" = Ok results ->
  get_prop results "channels" = Ok (VArr (channel :: channels)) ->
  get_prop channel "alternatives" = Ok (VArr (VObj props :: alternatives)) ->
  snd (run (transcribe env w req))
  = Ok (res_json 200 (VObj [("transcript", assoc "transcript" props)])).
Proof.
  intros Hfile Hcall Hres Hch Halt.
  rewrite (transcribe_run env w req f Hfile), Hcall. simpl.
  unfold read_transcript, mbind, result_bind. rewrite Hres, Hch. simpl.
  rewrite Halt. reflexivity.
Qed.

End TranscriptProperties.

Lemma empty_channels_answer_500_witness :
  snd (run (transcribe Sample.env
              (Sample.answering
                 (VObj [("results", VObj [("channels", VArr [])])]) [] [])
              Fixture.upload))
  = Ok (res_error "Transcription failed").
Proof.
  apply (empty_channels_answer_500 Sample.env _ Fixture.upload
           {| buffer := [x52; x49; x46; x46] |}
           (VObj [("results", VObj [("channels", VArr [])])])
           (VObj [("channels", VArr [])]) (VArr [])); try reflexivity.
  left. reflexivity.
Defined.

Lemma first_alternative_only_witness :
  snd (run (transcribe Sample.env
              (Sample.answering
                 (VObj [("results",
                         VObj [("channels",
                                VArr [VObj [("alternatives",
                                             VArr [VObj [("transcript", VStr "first")];
                                                   VObj [("transcript", VStr "second")]])];
                                      VObj [("alternatives",
                                             VArr [VObj [("transcript", VStr "other")]])]])])])
                 [] [])
              Fixture.upload))
  = Ok (res_json 200 (VObj [("transcript", VStr "first")])).
Proof.
  apply (first_alternative_only Sample.env _ Fixture.upload
           {| buffer := [x52; x49; x46; x46] |}
           (VObj [("results",
                   VObj [("channels",
                          VArr [VObj [("alternatives",
                                       VArr [VObj [("transcript", VStr "first")];
                                             VObj [("transcript", VStr "second")]])];
                                VObj [("alternatives",
                                       VArr [VObj [("transcript", VStr "other")]])]])])])
           (VObj [("channels",
                   VArr [VObj [("alternatives",
                                VArr [VObj [("transcript", VStr "first")];
                                      VObj [("transcript", VStr "second")]])];
                         VObj [("alternatives",
                                VArr [VObj [("transcript", VStr "other")]])]])])
           (VObj [("alternatives",
                   VArr [VObj [("transcript", VStr "first")];
                         VObj [("transcript", VStr "second")]])])
           [VObj [("alternatives", VArr [VObj [("transcript", VStr "other")]])]]
           [VObj [("transcript", VStr "second")]]
           [("transcript", VStr "first")]); reflexivity.
Defined.

(** ** POST /api/speak *)

Section SpeakProperties.

Variable env : string -> option string.

(** X14. The text of the request is put unchanged under [text] in the body
    sent to the speech provider, and when the provider answers 2xx its
    bytes, however many, are the body of a 200 [audio/mpeg] response,
    unchanged. *)
Theorem speak_forwards_audio (w : World) (req : SpeakRequest) (audio : bytes) :
  axios_outcome w (elevenlabs_call env req) = Ok audio ->
  (exists body,
     data (elevenlabs_call env req) = BodyJson body
     /\ get_prop body "text" = Ok (VStr (text req)))
  /\ run (speak env w req)
     = ([Axios (elevenlabs_call env req)],
        Ok {| status := 200;
              content_type := Some "audio/mpeg";
              body := RawBody audio |}).
Proof.
  intros Hcall. split.
  - eexists. split; reflexivity.
  - rewrite speak_run, Hcall. reflexivity.
Qed.

End SpeakProperties.

Lemma speak_forwards_audio_witness :
  run (speak Sample.env (Sample.answering VNull [] []) {| text := "Hello" |})
  = ([Axios (elevenlabs_call Sample.env {| text := "Hello" |})],
     Ok {| status := 200; content_type := Some "audio/mpeg"; body := RawBody [] |}).
Proof.
  apply (speak_forwards_audio Sample.env (Sample.answering VNull [] [])
           {| text := "Hello" |} []).
  reflexivity.
Defined.

(** ** POST /api/search-products: the list of products *)

Lemma lookup_map {A B} (g : A -> B) (l : list A) (i : nat) :
  map g l !! i = g <$> l !! i.
Proof.
  revert i. induction l as [|x l IH]; intros [|i]; simpl; auto.
Qed.

(** X15. When the store resolves, the route answers 200 with one product
    per record, in the store's order and with the record's id: the handler
    neither drops, nor reorders, nor truncates what the store returned, and
    an empty result is an empty list, not an error. *)
Theorem products_follow_records (w : World) (req : SearchRequest)
        (records : list AirtableRecord) :
  store w "Products" (select_params req) = Ok records ->
  exists products,
    snd (run (search_products w req))
    = Ok (res_json 200 (VObj [("products", VArr products)]))
    /\ length products = length records
    /\ (forall i r, records !! i = Some r ->
          exists p, products !! i = Some p
                    /\ get_prop p "id" = Ok (VStr (record_id r))
                    /\ get_prop p "title" = Ok (get r "title"))
    /\ (records = [] -> products = []).
Proof.
  intros Hstore. exists (map product_of_record records).
  rewrite search_products_run, Hstore.
  split; [reflexivity|]. split; [apply length_map|]. split.
  - intros i r Hi. exists (product_of_record r). rewrite lookup_map, Hi.
    repeat split.
  - intros ->. reflexivity.
Qed.

Lemma products_follow_records_witness :
  exists products,
    snd (run (search_products (Sample.answering VNull [] [])
                (Fixture.search (Some "mulch") None)))
    = Ok (res_json 200 (VObj [("products", VArr products)]))
    /\ length products = 0%nat.
Proof.
  destruct (products_follow_records (Sample.answering VNull [] [])
              (Fixture.search (Some "mulch") None) [] eq_refl)
    as (products & Hrun & Hlen & _).
  exists products. split; [exact Hrun | exact Hlen].
Defined.

(** ** Configuration *)

(** X16. No handler checks the provider keys.  With the store configured
    but the variables of the three HTTP providers unset, each route still
    makes its call, sending [Token undefined] to the transcription provider,
    [Bearer undefined] to the model, and, to the speech provider, a URL
    ending in [undefined] with an undefined [xi-api-key]. *)
Theorem missing_configuration_still_calls (env : string -> option string)
        (toLowerCase : string -> string) (JSON_stringify : value -> string)
        (w : World) (f : UploadedFile) (creq : ChatRequest) (sreq : SpeakRequest) :
  is_Some (env "AIRTABLE_API_KEY") ->
  is_Some (env "AIRTABLE_BASE_ID") ->
  env "DEEPGRAM_API_KEY" = None ->
  env "OPENAI_API_KEY" = None ->
  env "ELEVENLABS_API_KEY" = None ->
  env "ELEVENLABS_VOICE_ID" = None ->
  (exists c, fst (run (post_transcribe env w [("audio", f)])) = [Axios c]
             /\ In ("Authorization", Some "Token undefined") (headers c))
  /\ (exists c, fst (run (get_response env toLowerCase JSON_stringify w creq))
                = [Axios c]
                /\ In ("Authorization", Some "Bearer undefined") (headers c))
  /\ (exists c, fst (run (speak env w sreq)) = [Axios c]
                /\ url c = "https://api.elevenlabs.io/v1/text-to-speech/undefined"
                /\ In ("xi-api-key", None) (headers c)).
Proof.
  intros _ _ Hd Ho Hk Hv. split; [|split].
  - change (post_transcribe env w [("audio", f)])
      with (transcribe env w {| file := Some f |}).
    rewrite (transcribe_run env w {| file := Some f |} f eq_refl).
    eexists. split; [reflexivity|]. simpl. rewrite Hd. left. reflexivity.
  - rewrite get_response_run. eexists. split; [reflexivity|].
    simpl. rewrite Ho. left. reflexivity.
  - rewrite speak_run. eexists. split; [reflexivity|].
    simpl. rewrite Hk, Hv. split; [reflexivity | left; reflexivity].
Qed.

Lemma missing_configuration_still_calls_witness :
  exists c, fst (run (post_transcribe
                        (fun name => if String.prefix "AIRTABLE_" name
                                     then Some "key" else None)
                        Sample.offline
                        [("audio", {| buffer := [x52; x49; x46; x46] |})]))
            = [Axios c]
            /\ In ("Authorization", Some "Token undefined") (headers c).
Proof.
  apply (missing_configuration_still_calls
           (fun name => if String.prefix "AIRTABLE_" name then Some "key" else None)
           Sample.toLowerCase Sample.JSON_stringify
           Sample.offline {| buffer := [x52; x49; x46; x46] |}
           (Fixture.chat "hello" []) {| text := "Hello" |});
    try reflexivity; eexists; reflexivity.
Defined.

(** ** Further edge cases *)

(** X17. An empty category and an empty tag list count as absent: taking
    them out of the request changes neither the store call nor the
    answer. *)
Theorem empty_fields_are_absent (w : World) (req : SearchRequest) :
  filterFormula req = filterFormula (without_empty_fields req)
  /\ run (search_products w req) = run (search_products w (without_empty_fields req)).
Proof.
  assert (filterFormula req = filterFormula (without_empty_fields req)) as Hf.
  { unfold filterFormula, without_empty_fields. cbn [category tags].
    destruct (category req) as [[|a c]|], (tags req) as [[|t ts]|]; reflexivity. }
  split; [exact Hf|]. rewrite !search_products_run.
  unfold select_params. rewrite <- Hf. reflexivity.
Qed.

Lemma includes_empty (s : string) : includes s "" = true.
Proof. destruct s; reflexivity. Qed.

(** X18. A product whose title folds to the empty string is matched by
    every reply text: the filter callback answers [true] for it. *)
Theorem empty_title_always_mentioned (toLowerCase : string -> string)
        (text title : string) (product : value) :
  get_prop product "title" = Ok (VStr title) ->
  toLowerCase title = "" ->
  mentions toLowerCase (VStr text) product = Ok true.
Proof.
  intros Ht Hfold. unfold mentions, mbind, result_bind. simpl.
  rewrite Ht. simpl. rewrite Hfold, includes_empty. reflexivity.
Qed.

Lemma empty_title_always_mentioned_witness :
  mentions Sample.toLowerCase (VStr "We have no soil today.") (Fixture.product "")
  = Ok true.
Proof.
  apply (empty_title_always_mentioned Sample.toLowerCase
           "We have no soil today." "" (Fixture.product "")); reflexivity.
Defined.

(** X19. On the three routes that call a provider over HTTP, when the call
    ends without a 2xx reply (no reply at all, or a last reply, redirects
    followed, whose status lies outside 200..299), the answer is the
    route's fixed 500 error object, whatever body came with that status. *)
Theorem non_2xx_answers_500 (env : string -> option string)
        (toLowerCase : string -> string) (JSON_stringify : value -> string)
        (w : World) :
  (forall f,
      no_2xx_reply w (deepgram_call env (buffer f)) ->
      snd (run (post_transcribe env w [("audio", f)]))
      = Ok {| status := 500;
            content_type := Some "application/json; charset=utf-8";
            body := JsonBody (VObj [("error", VStr "Transcription failed")]) |})
  /\ (forall body history,
        spread (body_conversationHistory body) = Ok history ->
        no_2xx_reply w (openai_call env JSON_stringify (chat_request body history)) ->
        snd (run (post_get_response env toLowerCase JSON_stringify w body))
        = Ok {| status := 500;
            content_type := Some "application/json; charset=utf-8";
            body := JsonBody (VObj [("error", VStr "AI response failed")]) |})
  /\ (forall req,
        no_2xx_reply w (elevenlabs_call env req) ->
        snd (run (speak env w req))
        = Ok {| status := 500;
            content_type := Some "application/json; charset=utf-8";
            body := JsonBody (VObj [("error", VStr "Text-to-speech failed")]) |}).
Proof.
  split; [|split].
  - intros f H. apply axios_rejects_iff in H as [e He].
    change (post_transcribe env w [("audio", f)])
      with (transcribe env w {| file := Some f |}).
    rewrite (transcribe_run env w {| file := Some f |} f eq_refl), He. reflexivity.
  - intros body history Hs H. apply axios_rejects_iff in H as [e He].
    rewrite (post_get_response_spread env toLowerCase JSON_stringify w body history Hs),
      get_response_run, He. reflexivity.
  - intros req H. apply axios_rejects_iff in H as [e He].
    rewrite speak_run, He. reflexivity.
Qed.

Lemma non_2xx_answers_500_witness :
  snd (run (speak Sample.env
              {| http := fun c =>
                   match responseType c as rt return HttpResult (data_of rt) with
                   | RJson => HttpReply 429 (VObj [("error", VStr "rate limited")])
                   | RArrayBuffer => HttpReply 429 [x7b; x7d]
                   end;
                 store := fun _ _ => Ok [] |}
              {| text := "Hello" |}))
  = Ok {| status := 500;
          content_type := Some "application/json; charset=utf-8";
          body := JsonBody (VObj [("error", VStr "Text-to-speech failed")]) |}.
Proof.
  apply (non_2xx_answers_500 Sample.env Sample.toLowerCase Sample.JSON_stringify).
  right. exists 429, [x7b; x7d]. split; [reflexivity | lia].
Defined.
